(** * questdb-mcp: the request/response adaptation layer

    A shallow embedding of [src/questdb-client.ts] (class [QuestDBClient]),
    [src/logger.ts] (class [Logger]) and the four tool handlers
    ([createQueryTool], [createInsertTool], [createListTablesTool],
    [createDescribeTableTool]), and the properties of the specification
    that are about them.

    JavaScript strings are sequences of Unicode code points, JavaScript
    numbers are IEEE 754 binary64 values ([spec_float]), objects are
    association lists in property-enumeration order.  The HTTP endpoint,
    the line-protocol [Sender] of [@questdb/nodejs-client] and the MCP
    logging channel are external: each is an oracle that answers a call
    from the history of the calls made so far, and every call is recorded. *)

From Stdlib Require Import List NArith ZArith Bool Lia.
From Stdlib Require Import Strings.String Strings.Ascii.
From Stdlib Require Import Floats.SpecFloat.
Import ListNotations.
Set Warnings "-register-all".
Local Open Scope list_scope.
Local Open Scope N_scope.

(** ** Strings *)

(** A string is the sequence of its code points. *)
Definition jsstring := list N.

(** A source literal (all literals of the program are ASCII). *)
Definition lit (s : string) : jsstring :=
  map N_of_ascii (list_ascii_of_string s).
Arguments lit s%_string.

Fixpoint str_eqb (a b : jsstring) : bool :=
  match a, b with
  | [], [] => true
  | x :: a', y :: b' => (x =? y) && str_eqb a' b'
  | _, _ => false
  end.

(** ECMAScript [WhiteSpace] and [LineTerminator] code points: what
    [String.prototype.trim] strips. *)
Definition isWhiteSpace (c : N) : bool :=
  ((9 <=? c) && (c <=? 13))          (* TAB LF VT FF CR *)
  || (c =? 32)                        (* SPACE *)
  || (c =? 160)                       (* NO-BREAK SPACE *)
  || (c =? 5760)                      (* U+1680 *)
  || ((8192 <=? c) && (c <=? 8202))   (* U+2000 .. U+200A *)
  || (c =? 8232) || (c =? 8233)       (* U+2028 U+2029 *)
  || (c =? 8239)                      (* U+202F *)
  || (c =? 8287)                      (* U+205F *)
  || (c =? 12288)                     (* U+3000 *)
  || (c =? 65279).                    (* U+FEFF *)

Fixpoint trimStart (s : jsstring) : jsstring :=
  match s with
  | [] => []
  | c :: r => if isWhiteSpace c then trimStart r else s
  end.

Definition trimEnd (s : jsstring) : jsstring := rev (trimStart (rev s)).

(** [String.prototype.trim]. *)
Definition trim (s : jsstring) : jsstring := trimEnd (trimStart s).

(** [String.prototype.startsWith] (position 0). *)
Fixpoint startsWith (s p : jsstring) {struct p} : bool :=
  match p, s with
  | [], _ => true
  | x :: p', y :: s' => (x =? y) && startsWith s' p'
  | _ :: _, [] => false
  end.

(** Upper-casing of an ASCII code point. *)
Definition ascii_upper (c : N) : N :=
  if (97 <=? c) && (c <=? 122) then c - 32 else c.

(** The UTF-16 code units of a string; [String.prototype.length] counts
    them and [s[i]] reads one. *)
Definition utf16_of_code_point (c : N) : list N :=
  if c <? 65536 then [c]
  else [55296 + (c - 65536) / 1024; 56320 + (c - 65536) mod 1024].

Definition utf16 (s : jsstring) : list N := flat_map utf16_of_code_point s.

(** A canonical array index: a decimal numeral without a leading zero. *)
Definition digit_of (c : N) : option N :=
  if (48 <=? c) && (c <=? 57) then Some (c - 48) else None.

Fixpoint parse_digits (acc : N) (s : jsstring) : option N :=
  match s with
  | [] => Some acc
  | c :: r =>
      match digit_of c with
      | Some d => parse_digits (10 * acc + d) r
      | None => None
      end
  end.

Definition parse_index (k : jsstring) : option N :=
  match k with
  | [] => None
  | [c] => digit_of c
  | c :: _ => if c =? 48 then None else parse_digits 0 k
  end.

(** Array.prototype.join *)
Fixpoint join (sep : jsstring) (l : list jsstring) : jsstring :=
  match l with
  | [] => []
  | [x] => x
  | x :: r => x ++ sep ++ join sep r
  end.

(** ** Numbers *)

(** A finite binary64 value [(-1)^s * m * 2^e] has no fractional part iff
    [2^(-e)] divides [m] whenever [e] is negative. *)
Definition Number_isInteger (x : spec_float) : bool :=
  match x with
  | S754_zero _ => true
  | S754_finite _ m e =>
      (0 <=? e)%Z || (Z.pos m mod 2 ^ (- e) =? 0)%Z
  | S754_infinity _ | S754_nan => false
  end.

Definition NaN : spec_float := S754_nan.

(** A natural number as a Number (array and string lengths, HTTP statuses). *)
Definition Number_of_N (n : N) : spec_float :=
  match n with
  | N0 => S754_zero false
  | Npos p => S754_finite false p 0
  end.

(** ** Values *)

(** The values the program handles: what JSON can carry, and [undefined]. *)
Inductive JsValue : Type :=
| VUndefined
| VNull
| VBool (b : bool)
| VNumber (x : spec_float)
| VString (s : jsstring)
| VArray (elems : list JsValue)
| VObject (props : list (jsstring * JsValue)).

Inductive JsType := TUndefined | TObject | TBoolean | TNumber | TString.

(** The [typeof] operator. *)
Definition typeof (v : JsValue) : JsType :=
  match v with
  | VUndefined => TUndefined
  | VNull | VArray _ | VObject _ => TObject
  | VBool _ => TBoolean
  | VNumber _ => TNumber
  | VString _ => TString
  end.

(** [ToBoolean]: what [||], [&&], [!] and [if] test. *)
Definition truthy (v : JsValue) : bool :=
  match v with
  | VUndefined | VNull => false
  | VBool b => b
  | VNumber (S754_zero _) | VNumber S754_nan => false
  | VNumber _ => true
  | VString s => negb (str_eqb s [])
  | VArray _ | VObject _ => true
  end.

(** [a || b]. *)
Definition js_or (a b : JsValue) : JsValue := if truthy a then a else b.

Definition isNullish (v : JsValue) : bool :=
  match v with VUndefined | VNull => true | _ => false end.

Definition Array_isArray (v : JsValue) : bool :=
  match v with VArray _ => true | _ => false end.

(** Own-property lookup in an object literal. *)
Fixpoint lookup (k : jsstring) (props : list (jsstring * JsValue)) : option JsValue :=
  match props with
  | [] => None
  | (k', v) :: r => if str_eqb k k' then Some v else lookup k r
  end.

(** [{...props, k: v}]: an existing key keeps its place, a new one goes last. *)
Fixpoint obj_set (k : jsstring) (v : JsValue) (props : list (jsstring * JsValue))
  : list (jsstring * JsValue) :=
  match props with
  | [] => [(k, v)]
  | (k', v') :: r => if str_eqb k k' then (k, v) :: r else (k', v') :: obj_set k v r
  end.

(** [{...a, ...b}]. *)
Definition obj_spread (a b : list (jsstring * JsValue)) : list (jsstring * JsValue) :=
  fold_left (fun acc kv => obj_set (fst kv) (snd kv) acc) b a.

(** [const { k: _, ...rest } = props]. *)
Definition obj_rest (k : jsstring) (props : list (jsstring * JsValue))
  : list (jsstring * JsValue) :=
  filter (fun kv => negb (str_eqb (fst kv) k)) props.

(** Property read [v[k]] for the keys the program reads ([dataset],
    [count], [columns], [timestamp], [length], [0]): [None] is the
    TypeError of reading a property of [null] or [undefined]. *)
Definition Get (v : JsValue) (k : jsstring) : option JsValue :=
  match v with
  | VUndefined | VNull => None
  | VBool _ | VNumber _ => Some VUndefined
  | VString s =>
      if str_eqb k (lit "length")
      then Some (VNumber (Number_of_N (N.of_nat (List.length (utf16 s)))))
      else match parse_index k with
           | Some i => match nth_error (utf16 s) (N.to_nat i) with
                       | Some u => Some (VString [u])
                       | None => Some VUndefined
                       end
           | None => Some VUndefined
           end
  | VArray l =>
      if str_eqb k (lit "length") then Some (VNumber (Number_of_N (N.of_nat (List.length l))))
      else match parse_index k with
           | Some i => Some (nth (N.to_nat i) l VUndefined)
           | None => Some VUndefined
           end
  | VObject props =>
      Some (match lookup k props with Some x => x | None => VUndefined end)
  end.

(** ** Encodings used for the Basic credentials *)

(** [Buffer.from(s)]: UTF-8, a lone surrogate becoming U+FFFD. *)
Definition utf8_of_code_point (c : N) : list N :=
  if c <? 128 then [c]
  else if c <? 2048 then [192 + c / 64; 128 + c mod 64]
  else if (55296 <=? c) && (c <=? 57343) then [239; 191; 189]
  else if c <? 65536 then [224 + c / 4096; 128 + (c / 64) mod 64; 128 + c mod 64]
  else [240 + c / 262144; 128 + (c / 4096) mod 64; 128 + (c / 64) mod 64; 128 + c mod 64].

Definition Buffer_from (s : jsstring) : list N := flat_map utf8_of_code_point s.

Definition base64_digit (i : N) : N :=
  if i <? 26 then 65 + i
  else if i <? 52 then 97 + (i - 26)
  else if i <? 62 then 48 + (i - 52)
  else if i =? 62 then 43 else 47.

(** [buffer.toString("base64")]. *)
Fixpoint base64 (bytes : list N) : jsstring :=
  match bytes with
  | [] => []
  | [a] => [base64_digit (a / 4); base64_digit ((a mod 4) * 16); 61; 61]
  | [a; b] =>
      [base64_digit (a / 4); base64_digit ((a mod 4) * 16 + b / 16);
       base64_digit ((b mod 16) * 4); 61]
  | a :: b :: c :: r =>
      base64_digit (a / 4) :: base64_digit ((a mod 4) * 16 + b / 16)
      :: base64_digit ((b mod 16) * 4 + c / 64) :: base64_digit (c mod 64)
      :: base64 r
  end.



(** ** Errors and outcomes *)

(** What a [throw] carries: an [Error] instance with its message, or any
    other value. *)
Inductive Thrown :=
| ErrorObj (message : jsstring)
| ThrownValue (v : JsValue).

Inductive Outcome (A : Type) :=
| Ok (a : A)
| Throw (e : Thrown).
Arguments Ok {A} a.
Arguments Throw {A} e.

(** ** Configuration ([types.ts]) *)

Record QuestDBConfig := {
  host : jsstring;
  port : spec_float;
  username : option jsstring;
  password : option jsstring;
  autoFlushRows : option spec_float;
  autoFlushInterval : option spec_float;
}.

(** Truthiness of an optional string / number field. *)
Definition truthy_str (o : option jsstring) : bool :=
  match o with Some s => truthy (VString s) | None => false end.

Definition truthy_num (o : option spec_float) : bool :=
  match o with Some x => truthy (VNumber x) | None => false end.

(** [`${field}`] of an optional string field. *)
Definition template_str (o : option jsstring) : jsstring :=
  match o with Some s => s | None => lit "undefined" end.

(** ** The external world *)

(** The methods of the line-protocol [Sender] ([stringColumn] is part of
    its interface). *)
Inductive SenderCall :=
| FromConfig (configString : jsstring)
| Table (name : jsstring)
| Symbol (name value : jsstring)
| StringColumn (name value : jsstring)
| IntColumn (name : jsstring) (value : spec_float)
| FloatColumn (name : jsstring) (value : spec_float)
| BooleanColumn (name : jsstring) (value : bool)
| At (timestamp : spec_float) (unit : jsstring)
| AtNow
| Flush
| Close.

Record URL := {
  url_href : jsstring;
  searchParams : list (jsstring * jsstring);
}.

Record Request := {
  req_url : URL;
  req_method : jsstring;
  req_headers : list (jsstring * jsstring);
}.

Record Response := {
  resp_ok : bool;
  resp_status : N;
  resp_statusText : jsstring;
  resp_text : Outcome jsstring;   (* response.text() *)
  resp_json : Outcome JsValue;    (* response.json() *)
}.

Record LogMessage := {
  level : jsstring;
  data : list (jsstring * JsValue);
}.

(** The collaborators: each answers a call from the calls made before it. *)
Record Environment := {
  fetch_answer : list Request -> Request -> Outcome Response;
  sender_answer : list (N * SenderCall) -> N -> SenderCall -> option Thrown;
  sendLoggingMessage_answer : list LogMessage -> LogMessage -> option Thrown;
}.

(** The adapter's field [this.sender] and everything observable outside. *)
Record State := {
  this_sender : option N;
  sender_log : list (N * SenderCall);
  net_log : list Request;
  mcp_connected : bool;
  mcp_log : list LogMessage;
  console : list (list JsValue);
}.

Definition set_this_sender (o : option N) (st : State) : State :=
  {| this_sender := o; sender_log := sender_log st; net_log := net_log st;
     mcp_connected := mcp_connected st; mcp_log := mcp_log st; console := console st |}.

Definition push_sender_log (e : N * SenderCall) (st : State) : State :=
  {| this_sender := this_sender st; sender_log := sender_log st ++ [e];
     net_log := net_log st; mcp_connected := mcp_connected st;
     mcp_log := mcp_log st; console := console st |}.

Definition push_net_log (r : Request) (st : State) : State :=
  {| this_sender := this_sender st; sender_log := sender_log st;
     net_log := net_log st ++ [r]; mcp_connected := mcp_connected st;
     mcp_log := mcp_log st; console := console st |}.

Definition push_mcp_log (m : LogMessage) (st : State) : State :=
  {| this_sender := this_sender st; sender_log := sender_log st;
     net_log := net_log st; mcp_connected := mcp_connected st;
     mcp_log := mcp_log st ++ [m]; console := console st |}.

Definition push_console (line : list JsValue) (st : State) : State :=
  {| this_sender := this_sender st; sender_log := sender_log st;
     net_log := net_log st; mcp_connected := mcp_connected st;
     mcp_log := mcp_log st; console := console st ++ [line] |}.

(** ** Computations: state passing with exceptions *)

Definition M (A : Type) : Type := State -> Outcome A * State.

Definition ret {A} (a : A) : M A := fun st => (Ok a, st).

Definition throw {A} (e : Thrown) : M A := fun st => (Throw e, st).

Definition bind {A B} (m : M A) (k : A -> M B) : M B :=
  fun st =>
    match m st with
    | (Ok a, st') => k a st'
    | (Throw e, st') => (Throw e, st')
    end.

(** [try { m } catch (e) { h e }]. *)
Definition try_catch {A} (m : M A) (h : Thrown -> M A) : M A :=
  fun st =>
    match m st with
    | (Ok a, st') => (Ok a, st')
    | (Throw e, st') => h e st'
    end.

(** [await] of a settled promise. *)
Definition settle {A} (o : Outcome A) : M A :=
  match o with Ok a => ret a | Throw e => throw e end.

Declare Scope m_scope.
Delimit Scope m_scope with m.
Notation "x <- c ;; k" := (bind c (fun x => k))
  (at level 61, c at next level, right associativity) : m_scope.
Notation "c ;;; k" := (bind c (fun _ => k))
  (at level 61, right associativity) : m_scope.
Local Open Scope m_scope.

(** ** Configuration from the process environment ([config.ts]) *)

(** [process.env]: the variables that are set, with their texts. *)
Definition ProcessEnv := list (jsstring * jsstring).

Fixpoint getenv (k : jsstring) (e : ProcessEnv) : option jsstring :=
  match e with
  | [] => None
  | (k', v) :: r => if str_eqb k k' then Some v else getenv k r
  end.

(** The Number of an integer with its sign: exact below 2^53, rounded to
    the nearest binary64 value from there on. *)
Definition Number_of_integer (negative : bool) (n : N) : spec_float :=
  match n with
  | N0 => S754_zero negative
  | Npos p =>
      if n <? 9007199254740992 then S754_finite negative p 0
      else binary_normalize 53 1024 (if negative then Z.neg p else Z.pos p) 0 false
  end.

(** The digits a string starts with, as numbers. *)
Fixpoint leading_digits (s : jsstring) : list N :=
  match s with
  | [] => []
  | c :: r =>
      match digit_of c with
      | Some d => d :: leading_digits r
      | None => []
      end
  end.

Definition digits_value (ds : list N) : N :=
  fold_left (fun acc d => 10 * acc + d) ds 0.

(** [parseInt(s, 10)]: leading white space is skipped, one sign is read,
    then the longest run of decimal digits; [NaN] when there is none. *)
Definition parseInt10 (s : jsstring) : spec_float :=
  let s1 := trimStart s in
  let negative := match s1 with 45 :: _ => true | _ => false end in
  let s2 := match s1 with
            | 45 :: r => r
            | 43 :: r => r
            | _ => s1
            end in
  match leading_digits s2 with
  | [] => NaN
  | ds => Number_of_integer negative (digits_value ds)
  end.

(** [process.env.K || fallback]. *)
Definition env_or (e : ProcessEnv) (k fallback : jsstring) : jsstring :=
  match getenv k e with
  | Some v => if truthy (VString v) then v else fallback
  | None => fallback
  end.

(** [process.env.K ? parseInt(process.env.K, 10) : undefined]. *)
Definition env_number (e : ProcessEnv) (k : jsstring) : option spec_float :=
  match getenv k e with
  | Some v => if truthy (VString v) then Some (parseInt10 v) else None
  | None => None
  end.

Definition loadConfig (e : ProcessEnv) : QuestDBConfig :=
  {| host := env_or e (lit "QUESTDB_HOST") (lit "localhost");
     port := parseInt10 (env_or e (lit "QUESTDB_PORT") (lit "9000"));
     username := getenv (lit "QUESTDB_USERNAME") e;
     password := getenv (lit "QUESTDB_PASSWORD") e;
     autoFlushRows := env_number e (lit "QUESTDB_AUTO_FLUSH_ROWS");
     autoFlushInterval := env_number e (lit "QUESTDB_AUTO_FLUSH_INTERVAL") |}.

(** ** The server object ([server.ts]) *)

(** The adapter with its surroundings, whether [this.transport] is set,
    and the number of calls of [mcpServer.close()] made so far. *)
Record Server := {
  srv_state : State;
  srv_transport : bool;
  srv_mcp_closes : nat;
}.

Definition MS (A : Type) : Type := Server -> Outcome A * Server.

(** A computation of the adapter, run inside the server. *)
Definition liftS {A} (m : M A) : MS A :=
  fun s =>
    let (o, st') := m (srv_state s) in
    (o, {| srv_state := st'; srv_transport := srv_transport s;
           srv_mcp_closes := srv_mcp_closes s |}).

Definition bindS {A B} (m : MS A) (k : A -> MS B) : MS B :=
  fun s =>
    match m s with
    | (Ok a, s') => k a s'
    | (Throw e, s') => (Throw e, s')
    end.

Definition try_catchS {A} (m : MS A) (h : Thrown -> MS A) : MS A :=
  fun s =>
    match m s with
    | (Ok a, s') => (Ok a, s')
    | (Throw e, s') => h e s'
    end.


(** ** A small host, for the examples *)

(** Two of the upper-case mappings outside ASCII: U+00DF gives "SS" and
    U+017F (long s) gives "S"; the other code points are left alone. *)
Definition sample_Uppercase_Mapping (c : N) : list N :=
  if c =? 223 then [83; 83] else if c =? 383 then [83] else [c].

Fixpoint decimal_digits (fuel : nat) (n : N) (acc : jsstring) : jsstring :=
  match fuel with
  | O => acc
  | S fuel' =>
      if n <? 10 then (48 + n) :: acc
      else decimal_digits fuel' (n / 10) ((48 + n mod 10) :: acc)
  end.

(** [Number.prototype.toString] on the integers below 10^21; the
    examples print no other number (the integer part is printed). *)
Definition sample_Number_toString (x : spec_float) : jsstring :=
  match x with
  | S754_zero _ => lit "0"
  | S754_nan => lit "NaN"
  | S754_infinity false => lit "Infinity"
  | S754_infinity true => lit "-Infinity"
  | S754_finite s m e =>
      let n := Z.to_N (Z.shiftl (Z.pos m) e) in
      (if s then lit "-" else []) ++ decimal_digits (S (N.to_nat (N.size n))) n []
  end.

(** A [Date.parse] that knows one date. *)
Definition sample_Date_parse (s : jsstring) : spec_float :=
  if str_eqb s (lit "2023-11-04T18:44:16.789Z")
  then Number_of_N 1699123456789
  else NaN.

(** The text of the successful answers is not looked at in the examples. *)
Definition sample_JSON_stringify (v : JsValue) : JsValue := VString (lit "{...}").

Definition sample_URL_parses (s : jsstring) : bool := negb (existsb isWhiteSpace s).

Definition sample_config : QuestDBConfig :=
  {| host := lit "localhost"; port := Number_of_N 9000;
     username := None; password := None;
     autoFlushRows := None; autoFlushInterval := None |}.


(** A database that answers every request with status 200 and the JSON
    value [body], a sender and a logging channel that accept every call. *)
Definition serving (body : JsValue) : Environment :=
  {| fetch_answer := fun _ _ =>
       Ok {| resp_ok := true; resp_status := 200; resp_statusText := lit "OK";
             resp_text := Ok (lit ""); resp_json := Ok body |};
     sender_answer := fun _ _ _ => None;
     sendLoggingMessage_answer := fun _ _ => None |}.

(** A database that answers every request with status 400. *)
Definition refusing : Environment :=
  {| fetch_answer := fun _ _ =>
       Ok {| resp_ok := false; resp_status := 400; resp_statusText := lit "Bad Request";
             resp_text := Ok (lit "unexpected token");
             resp_json := Throw (ErrorObj (lit "Unexpected token")) |};
     sender_answer := fun _ _ _ => None;
     sendLoggingMessage_answer := fun _ _ => None |}.

(** A sender that refuses to close a row at [NaN], with the message of
    the client library for a designated timestamp that is no integer, and
    whose [flush] and [close] fail. *)
Definition strict_sender : Environment :=
  {| fetch_answer := fun _ _ => Throw (ErrorObj (lit "fetch failed"));
     sender_answer := fun _ _ c =>
       match c with
       | At S754_nan _ =>
           Some (ErrorObj (lit "Designated timestamp must be an integer or BigInt, received NaN"))
       | Flush | Close => Some (ErrorObj (lit "socket closed"))
       | _ => None
       end;
     sendLoggingMessage_answer := fun _ _ => Some (ErrorObj (lit "Not connected")) |}.

(** The JSON value [{"toString": 1}]: an object whose own [toString]
    property is no function, so that it has no conversion to a string. *)
Definition no_string : JsValue := VObject [(lit "toString", VNumber (Number_of_N 1))].


(** The adapter as constructed: no sender, nothing sent or logged. *)
Definition fresh (connected : bool) : State :=
  {| this_sender := None; sender_log := []; net_log := [];
     mcp_connected := connected; mcp_log := []; console := [] |}.

(** An adapter that holds the sender created by its first call. *)
Definition holding : State :=
  {| this_sender := Some 0;
     sender_log := [(0, FromConfig (lit "http::addr=localhost:9000"))];
     net_log := []; mcp_connected := true; mcp_log := []; console := [] |}.

(** The record of the specification's example, with a null field added:
    [{a: "x", b: 1, b2: 1.5, c: true, n: null, timestamp: 1699123456789}]. *)
Definition sample_record : list (jsstring * JsValue) :=
  [(lit "a", VString (lit "x"));
   (lit "b", VNumber (Number_of_N 1));
   (lit "b2", VNumber (S754_finite false 3 (-1)));
   (lit "c", VBool true);
   (lit "n", VNull);
   (lit "timestamp", VNumber (Number_of_N 1699123456789))].

(** The same with an array and an object among the fields:
    [{a: "x", b: 1, b2: 1.5, c: true, n: null, l: ["a", null, 1],
      o: {k: 1}, timestamp: 1699123456789}]. *)
Definition mixed_record : list (jsstring * JsValue) :=
  [(lit "a", VString (lit "x"));
   (lit "b", VNumber (Number_of_N 1));
   (lit "b2", VNumber (S754_finite false 3 (-1)));
   (lit "c", VBool true);
   (lit "n", VNull);
   (lit "l", VArray [VString (lit "a"); VNull; VNumber (Number_of_N 1)]);
   (lit "o", VObject [(lit "k", VNumber (Number_of_N 1))]);
   (lit "timestamp", VNumber (Number_of_N 1699123456789))].

(** [{a: "x", o: {toString: 1}, b: 1}]. *)
Definition unconvertible_record : list (jsstring * JsValue) :=
  [(lit "a", VString (lit "x")); (lit "o", no_string);
   (lit "b", VNumber (Number_of_N 1))].

(** [{timestamp: "2023-11-04T18:44:16.789Z", a: "x"}]. *)
Definition dated_record : list (jsstring * JsValue) :=
  [(lit "timestamp", VString (lit "2023-11-04T18:44:16.789Z"));
   (lit "a", VString (lit "x"))].

(** [{timestamp: {toString: 1}, a: "x"}]. *)
Definition unconvertible_timestamp : list (jsstring * JsValue) :=
  [(lit "timestamp", no_string); (lit "a", VString (lit "x"))].

(** [{timestamp: "not a date", a: "x"}]. *)
Definition undated_record : list (jsstring * JsValue) :=
  [(lit "timestamp", VString (lit "not a date")); (lit "a", VString (lit "x"))].

(** Results of the query endpoint used in the examples. *)
Definition two_tables : JsValue :=
  VObject [(lit "query", VString (lit "SELECT table_name FROM tables() ORDER BY table_name"));
           (lit "columns", VArray [VString (lit "table_name")]);
           (lit "dataset", VArray [VArray [VString (lit "quotes")];
                                   VArray [VString (lit "trades")]]);
           (lit "count", VNumber (Number_of_N 2))].

Definition null_row : JsValue := VObject [(lit "dataset", VArray [VNull])].

Definition zero_count : JsValue :=
  VObject [(lit "dataset", VArray [VArray [VNumber (Number_of_N 1)]]);
           (lit "count", VNumber (S754_zero false))].

Section Adapter.

(** ** Built-ins of the host that are taken as given *)

(** [Uppercase_Mapping] of the Unicode character database outside ASCII
    (it can lengthen the string: U+00DF gives "SS"). *)
Variable Uppercase_Mapping_nonascii : N -> list N.
(** [Number.prototype.toString]. *)
Variable Number_toString : spec_float -> jsstring.
(** [Date.parse] on a string: epoch milliseconds, [NaN] when the string
    is not a date. *)
Variable Date_parse : jsstring -> spec_float.
(** [JSON.stringify(v, null, 2)]. *)
Variable JSON_stringify : JsValue -> JsValue.
(** Whether [new URL(s)] accepts [s] (it throws a TypeError otherwise). *)
Variable URL_parses : jsstring -> bool.

(** The collaborators and the adapter's configuration. *)
Variable env : Environment.
Variable config : QuestDBConfig.

(** [String.prototype.toUpperCase]: the upper-case mapping of every code
    point, concatenated. *)
Definition Uppercase_Mapping (c : N) : list N :=
  if c <? 128 then [ascii_upper c] else Uppercase_Mapping_nonascii c.

Definition toUpperCase (s : jsstring) : jsstring := flat_map Uppercase_Mapping s.

(** [String(v)], [None] when the conversion throws.  An object is
    converted by its [toString], then its [valueOf]: an object with a
    [toString] property of its own (which JSON can only bind to something
    that is not a function) gets no text from either and the conversion
    throws; any other object prints as "[object Object]".  An array joins
    the texts of its elements, [null] and [undefined] printing as nothing,
    and throws when an element does. *)
Fixpoint ToString (v : JsValue) : option jsstring :=
  match v with
  | VUndefined => Some (lit "undefined")
  | VNull => Some (lit "null")
  | VBool true => Some (lit "true")
  | VBool false => Some (lit "false")
  | VNumber x => Some (Number_toString x)
  | VString s => Some s
  | VArray l =>
      option_map (join (lit ","))
        ((fix elements (l : list JsValue) : option (list jsstring) :=
            match l with
            | [] => Some []
            | e :: r =>
                match match e with
                      | VUndefined | VNull => Some []
                      | _ => ToString e
                      end with
                | Some s => option_map (cons s) (elements r)
                | None => None
                end
            end) l)
  | VObject props =>
      match lookup (lit "toString") props with
      | Some _ => None
      | None => Some (lit "[object Object]")
      end
  end.

(** The TypeError of a conversion to a string that fails. *)
Definition cannot_convert : Thrown :=
  ErrorObj (lit "Cannot convert object to primitive value").

(** [String(v)] as a step that returns or throws. *)
Definition String_of (v : JsValue) : Outcome jsstring :=
  match ToString v with
  | Some s => Ok s
  | None => Throw cannot_convert
  end.

(** [error instanceof Error ? error.message : String(error)]. *)
Definition errorMessage (e : Thrown) : Outcome jsstring :=
  match e with
  | ErrorObj m => Ok m
  | ThrownValue v => String_of v
  end.

(** ** Calls to the collaborators *)

(** A method call on the sender with handle [h]. *)
Definition sender_call (h : N) (c : SenderCall) : M unit :=
  fun st =>
    match sender_answer env (sender_log st) h c with
    | None => (Ok tt, push_sender_log (h, c) st)
    | Some e => (Throw e, push_sender_log (h, c) st)
    end.

(** [Sender.fromConfig(configString)]: the new sender's handle is the
    number of calls made before. *)
Definition Sender_fromConfig (configString : jsstring) : M N :=
  fun st =>
    let h := N.of_nat (List.length (sender_log st)) in
    match sender_answer env (sender_log st) h (FromConfig configString) with
    | None => (Ok h, push_sender_log (h, FromConfig configString) st)
    | Some e => (Throw e, push_sender_log (h, FromConfig configString) st)
    end.

(** [fetch(url, init)]. *)
Definition fetch (r : Request) : M Response :=
  fun st =>
    match fetch_answer env (net_log st) r with
    | Ok resp => (Ok resp, push_net_log r st)
    | Throw e => (Throw e, push_net_log r st)
    end.

(** [mcpServer.server.sendLoggingMessage(m)]. *)
Definition sendLoggingMessage (m : LogMessage) : M unit :=
  fun st =>
    match sendLoggingMessage_answer env (mcp_log st) m with
    | None => (Ok tt, push_mcp_log m st)
    | Some e => (Throw e, push_mcp_log m st)
    end.

Definition console_error (line : list JsValue) : M unit :=
  fun st => (Ok tt, push_console line st).

(** [new URL(s)]. *)
Definition new_URL (s : jsstring) : M URL :=
  if URL_parses s then ret {| url_href := s; searchParams := [] |}
  else throw (ErrorObj (lit "Invalid URL")).

Definition searchParams_append (u : URL) (k v : jsstring) : URL :=
  {| url_href := url_href u; searchParams := searchParams u ++ [(k, v)] |}.

(** ** Logger ([logger.ts]) *)

Definition Logger_emit (lvl tag message : jsstring)
  (metadata : option (list (jsstring * JsValue))) : M unit :=
  let fallback :=
    console_error [VString tag; VString message;
                   match metadata with Some m => VObject m | None => VString [] end] in
  try_catch
    (fun st =>
       if mcp_connected st then
         sendLoggingMessage
           {| level := lvl;
              data := match metadata with
                      | Some m => obj_spread [(lit "message", VString message)] m
                      | None => [(lit "message", VString message)]
                      end |} st
       else fallback st)
    (fun _ => fallback).

Definition Logger_info := Logger_emit (lit "info") (lit "[Info]").
Definition Logger_error := Logger_emit (lit "error") (lit "[Error]").

(** ** QuestDBClient ([questdb-client.ts]) *)

Definition template_num (o : option spec_float) : jsstring :=
  match o with Some x => Number_toString x | None => lit "undefined" end.

(** [this.config.username && this.config.password], as a condition. *)
Definition has_credentials : bool :=
  truthy_str (username config) && truthy_str (password config).

Definition buildConfigString : jsstring :=
  let c0 := lit "http::addr=" ++ host config ++ lit ":" ++ Number_toString (port config) in
  let c1 :=
    if has_credentials
    then c0 ++ lit ";username=" ++ template_str (username config)
            ++ lit ";password=" ++ template_str (password config)
    else c0 in
  let c2 :=
    if truthy_num (autoFlushRows config)
    then c1 ++ lit ";auto_flush_rows=" ++ template_num (autoFlushRows config)
    else c1 in
  if truthy_num (autoFlushInterval config)
  then c2 ++ lit ";auto_flush_interval=" ++ template_num (autoFlushInterval config)
  else c2.

(** The log call of [getSender] is not awaited and cannot fail; its
    effect is placed where it is started. *)
Definition getSender : M N :=
  fun st =>
    match this_sender st with
    | Some h => (Ok h, st)
    | None =>
        (h <- Sender_fromConfig buildConfigString ;;
         (fun st' => (Ok tt, set_this_sender (Some h) st')) ;;;
         Logger_info (lit "QuestDB sender initialized")
           (Some [(lit "host", VString (host config));
                  (lit "port", VNumber (port config))]) ;;;
         ret h) st
    end.

(** The [Authorization] header value of [query], when there is one. *)
Definition authHeader : option jsstring :=
  if has_credentials
  then Some (lit "Basic "
             ++ base64 (Buffer_from (template_str (username config) ++ lit ":"
                                     ++ template_str (password config))))
  else None.

(** The safety check of [query]. *)
Definition is_select (q : jsstring) : bool :=
  startsWith (toUpperCase (trim q)) (lit "SELECT").

(** [query] from the construction of the URL on. *)
Definition query_request (q format : jsstring) : M JsValue :=
  url <- new_URL (lit "http://" ++ host config ++ lit ":"
                  ++ Number_toString (port config) ++ lit "/exec") ;;
  let url := searchParams_append url (lit "query") q in
  let url := searchParams_append url (lit "fmt") format in
  response <- fetch {| req_url := url;
                       req_method := lit "GET";
                       req_headers := match authHeader with
                                      | Some a => [(lit "Authorization", a)]
                                      | None => []
                                      end |} ;;
  if negb (resp_ok response) then
    errorText <- settle (resp_text response) ;;
    throw (ErrorObj (lit "Query failed: "
                     ++ Number_toString (Number_of_N (resp_status response))
                     ++ lit " " ++ resp_statusText response
                     ++ lit ". " ++ errorText))
  else if str_eqb format (lit "json") then settle (resp_json response)
  else (t <- settle (resp_text response) ;; ret (VString t)).

Definition query (q : jsstring) (format : option jsstring) : M JsValue :=
  let format := match format with Some f => f | None => lit "json" end in
  if negb (is_select q)
  then throw (ErrorObj (lit "Only SELECT queries are allowed for safety reasons"))
  else query_request q format.

(** The event time of an insert record: [Ok None] is [undefined].
    [Date.parse] converts its argument to a string first, which throws
    for a value that has no string. *)
Definition extract_timestamp (data : list (jsstring * JsValue))
  : Outcome (option spec_float) :=
  match lookup (lit "timestamp") data with
  | None | Some VUndefined => Ok None
  | Some (VNumber x) => Ok (Some x)
  | Some v =>
      match String_of v with
      | Ok s => Ok (Some (Date_parse s))
      | Throw e => Throw e
      end
  end.

(** The sender method one field is given to, by [typeof value]; the
    last branch throws when [String(value)] does. *)
Definition column_call (key : jsstring) (value : JsValue) : Outcome SenderCall :=
  match typeof value, value with
  | TString, VString s => Ok (Symbol key s)
  | TNumber, VNumber x =>
      Ok (if Number_isInteger x then IntColumn key x else FloatColumn key x)
  | TBoolean, VBool b => Ok (BooleanColumn key b)
  | _, _ =>
      match String_of value with
      | Ok s => Ok (Symbol key s)
      | Throw e => Throw e
      end
  end.

(** The loop over [Object.entries(columnData)]; [settle] runs a step that
    returns or throws without touching the state. *)
Fixpoint add_columns (h : N) (entries : list (jsstring * JsValue)) : M unit :=
  match entries with
  | [] => ret tt
  | (key, value) :: rest =>
      (if isNullish value then ret tt
       else (c <- settle (column_call key value) ;; sender_call h c)) ;;;
      add_columns h rest
  end.

Definition insert (table : jsstring) (data : list (jsstring * JsValue)) : M unit :=
  sender <- getSender ;;
  timestamp <- settle (extract_timestamp data) ;;
  let columnData := obj_rest (lit "timestamp") data in
  sender_call sender (Table table) ;;;
  add_columns sender columnData ;;;
  match timestamp with
  | Some t => sender_call sender (At t (lit "ms"))
  | None => sender_call sender AtNow
  end ;;;
  sender_call sender Flush.

(** Property read that throws on [null] and [undefined]. *)
Definition get_prop (v : JsValue) (k : jsstring) : M JsValue :=
  match Get v k with
  | Some x => ret x
  | None =>
      throw (ErrorObj (lit "Cannot read properties of "
                       ++ match v with VNull => lit "null" | _ => lit "undefined" end
                       ++ lit " (reading '" ++ k ++ lit "')"))
  end.

(** [rows.map((row) => row[0])]. *)
Fixpoint map_first_cell (rows : list JsValue) : M (list JsValue) :=
  match rows with
  | [] => ret []
  | row :: rest =>
      c <- get_prop row (lit "0") ;;
      cs <- map_first_cell rest ;;
      ret (c :: cs)
  end.

Definition listTables_sql : jsstring :=
  lit "SELECT table_name FROM tables() ORDER BY table_name".

Definition listTables : M (list JsValue) :=
  result <- query listTables_sql (Some (lit "json")) ;;
  if truthy result then
    dataset <- get_prop result (lit "dataset") ;;
    if truthy dataset then
      match dataset with
      | VArray rows => map_first_cell rows
      | _ => ret []
      end
    else ret []
  else ret [].

(** The character classes of [/^[a-zA-Z_][a-zA-Z0-9_]*$/]. *)
Definition is_ident_start (c : N) : bool :=
  ((97 <=? c) && (c <=? 122)) || ((65 <=? c) && (c <=? 90)) || (c =? 95).

Definition is_ident_part (c : N) : bool :=
  ((97 <=? c) && (c <=? 122)) || ((65 <=? c) && (c <=? 90))
  || ((48 <=? c) && (c <=? 57)) || (c =? 95).

(** [/^[a-zA-Z_][a-zA-Z0-9_]*$/.test(table)]. *)
Definition table_name_test (table : jsstring) : bool :=
  match table with
  | [] => false
  | c :: r => is_ident_start c && forallb is_ident_part r
  end.

Definition describe_sql (table : jsstring) : jsstring :=
  lit "SELECT * FROM table_columns('" ++ table ++ lit "')".

Definition describeTable (table : jsstring) : M JsValue :=
  if negb (table_name_test table)
  then throw (ErrorObj (lit "Invalid table name: " ++ table))
  else query (describe_sql table) (Some (lit "json")).

(** A caught value as [console.error] is handed it. *)
Definition thrown_value (e : Thrown) : JsValue :=
  match e with
  | ErrorObj m => VObject [(lit "message", VString m)]
  | ThrownValue v => v
  end.

(** As in [getSender], the log call is not awaited. *)
Definition close : M unit :=
  fun st =>
    match this_sender st with
    | Some h =>
        (try_catch
           (sender_call h Flush ;;;
            sender_call h Close ;;;
            Logger_info (lit "QuestDB connection closed") None)
           (fun error =>
              console_error [VString (lit "Error closing QuestDB connection:");
                             thrown_value error]) ;;;
         (fun st' => (Ok tt, set_this_sender None st'))) st
    | None => (Ok tt, st)
    end.

(** ** Tool handlers ([tools/query.ts], [tools/insert.ts],
       [tools/list-tables.ts], [tools/describe-table.ts]) *)

Record ContentItem := {
  item_type : jsstring;
  item_text : JsValue;
}.

(** The response envelope; [isError] is [true] when the property is
    present (it is only ever written as [isError: true]). *)
Record Envelope := {
  content : list ContentItem;
  structuredContent : option JsValue;
  isError : bool;
}.

Definition text_item (t : JsValue) : ContentItem :=
  {| item_type := lit "text"; item_text := t |}.

(** What every [catch] block returns. *)
Definition error_envelope (message : jsstring) : Envelope :=
  {| content := [text_item (VString (lit "Error: " ++ message))];
     structuredContent := None;
     isError := true |}.

(** The [catch] block of a handler: the message of what was caught (the
    step that throws when [String(error)] does), the log, then the answer
    with the envelope. *)
Definition handler_catch (what : jsstring)
  (metadata : option (list (jsstring * JsValue))) (error : Thrown) : M Envelope :=
  message <- settle (errorMessage error) ;;
  Logger_error (what ++ message) metadata ;;;
  ret (error_envelope message).

(** [queryResult.count || queryResult.dataset?.length || 0]. *)
Definition count_or_length (queryResult : JsValue) : M JsValue :=
  count <- get_prop queryResult (lit "count") ;;
  if truthy count then ret count
  else
    dataset <- get_prop queryResult (lit "dataset") ;;
    len <- (if isNullish dataset then ret VUndefined
            else get_prop dataset (lit "length")) ;;
    ret (js_or len (VNumber (S754_zero false))).

Definition query_handler (query_text : jsstring) (format : option jsstring) : M Envelope :=
  let format := match format with Some f => f | None => lit "json" end in
  try_catch
    (result <- query query_text (Some (if truthy (VString format) then format
                                       else lit "json")) ;;
     if str_eqb format (lit "json") then
       dataset <- get_prop result (lit "dataset") ;;
       count <- count_or_length result ;;
       columns <- get_prop result (lit "columns") ;;
       let structuredOutput :=
         VObject [(lit "query", VString query_text);
                  (lit "dataset", js_or dataset (VArray []));
                  (lit "count", count);
                  (lit "columns", js_or columns (VArray []))] in
       ret {| content := [text_item (JSON_stringify result)];
              structuredContent := Some structuredOutput;
              isError := false |}
     else
       ret {| content := [text_item result];
              structuredContent := None;
              isError := false |})
    (handler_catch (lit "Query failed: ") (Some [(lit "query", VString query_text)])).

Definition insert_handler (table : jsstring) (data : list (jsstring * JsValue))
  : M Envelope :=
  try_catch
    (insert table data ;;;
     let message := lit "Successfully inserted data into table '" ++ table ++ lit "'" in
     let output := VObject [(lit "success", VBool true);
                            (lit "table", VString table);
                            (lit "message", VString message)] in
     Logger_info (lit "Inserted data into table '" ++ table ++ lit "'") None ;;;
     ret {| content := [text_item (VString message)];
            structuredContent := Some output;
            isError := false |})
    (handler_catch (lit "Insert failed: ") (Some [(lit "table", VString table)])).

Definition list_tables_handler : M Envelope :=
  try_catch
    (tables <- listTables ;;
     let output :=
       VObject [(lit "tables", VArray tables);
                (lit "count", VNumber (Number_of_N (N.of_nat (List.length tables))))] in
     ret {| content := [text_item (JSON_stringify output)];
            structuredContent := Some output;
            isError := false |})
    (handler_catch (lit "List tables failed: ") None).

Definition describe_table_handler (table : jsstring) : M Envelope :=
  try_catch
    (result <- describeTable table ;;
     dataset <- get_prop result (lit "dataset") ;;
     let output := VObject [(lit "table", VString table);
                            (lit "columns", js_or dataset result)] in
     ret {| content := [text_item (JSON_stringify result)];
            structuredContent := Some output;
            isError := false |})
    (handler_catch (lit "Describe table failed: ") (Some [(lit "table", VString table)])).

(** ** The identifier pattern as a regular expression *)




(** ASCII letters compared without case. *)
Definition same_letter (a b : N) : bool := ascii_upper a =? ascii_upper b.

Fixpoint same_letters (s p : jsstring) : bool :=
  match s, p with
  | [], [] => true
  | a :: s', b :: p' => (a <? 128) && same_letter a b && same_letters s' p'
  | _, _ => false
  end.

(** ** What is observed of a run *)

(** The calls a computation adds to the sender's log. *)
Definition sender_calls_of {A} (m : M A) (st : State) : list (N * SenderCall) :=
  skipn (List.length (sender_log st)) (sender_log (snd (m st))).

(** The requests a computation sends. *)
Definition requests_of {A} (m : M A) (st : State) : list Request :=
  skipn (List.length (net_log st)) (net_log (snd (m st))).

Definition is_column_call (c : SenderCall) : bool :=
  match c with
  | Symbol _ _ | StringColumn _ _ | IntColumn _ _ | FloatColumn _ _
  | BooleanColumn _ _ => true
  | _ => false
  end.

Definition column_name (c : SenderCall) : jsstring :=
  match c with
  | Symbol k _ | StringColumn k _ | IntColumn k _ | FloatColumn k _
  | BooleanColumn k _ => k
  | _ => []
  end.

(** The URL of the execution endpoint and the GET request of [query]. *)
Definition exec_href : jsstring :=
  lit "http://" ++ host config ++ lit ":" ++ Number_toString (port config) ++ lit "/exec".

Definition query_GET (q format : jsstring) : Request :=
  {| req_url := {| url_href := exec_href;
                   searchParams := [(lit "query", q); (lit "fmt", format)] |};
     req_method := lit "GET";
     req_headers := match authHeader with
                    | Some a => [(lit "Authorization", a)]
                    | None => []
                    end |}.

Definition default_format (format : option jsstring) : jsstring :=
  match format with Some f => f | None => lit "json" end.

(** A run of calls on one sender, stopping at the first that throws. *)
Fixpoint run_calls (h : N) (cs : list SenderCall) : M unit :=
  match cs with
  | [] => ret tt
  | c :: r => sender_call h c ;;; run_calls h r
  end.

(** The sender's log extended by several calls. *)
Definition append_sender_log (l : list (N * SenderCall)) (st : State) : State :=
  {| this_sender := this_sender st; sender_log := sender_log st ++ l;
     net_log := net_log st; mcp_connected := mcp_connected st;
     mcp_log := mcp_log st; console := console st |}.

(** Two states that differ in the logging channel and the console only. *)
Definition same_adapter (a b : State) : Prop :=
  this_sender a = this_sender b /\ sender_log a = sender_log b
  /\ net_log a = net_log b /\ mcp_connected a = mcp_connected b.

Definition prefix_of {A} (a b : list A) : Prop := exists t, b = a ++ t.

(** The fields of a record that reach the sender as columns. *)
Definition column_entries (data : list (jsstring * JsValue)) : list (jsstring * JsValue) :=
  filter (fun kv => negb (isNullish (snd kv))) (obj_rest (lit "timestamp") data).

(** The column calls of the loop over some entries, in their order, up to
    the first field whose conversion throws, and whether the loop gets to
    its end. *)
Fixpoint column_plan (entries : list (jsstring * JsValue)) : list SenderCall * bool :=
  match entries with
  | [] => ([], true)
  | (key, value) :: rest =>
      if isNullish value then column_plan rest
      else match column_call key value with
           | Ok c => (c :: fst (column_plan rest), snd (column_plan rest))
           | Throw _ => ([], false)
           end
  end.

(** The column calls of a record. *)
Definition expected_columns (data : list (jsstring * JsValue)) : list SenderCall :=
  fst (column_plan (obj_rest (lit "timestamp") data)).

(** Whether every field of the record that is sent can be converted. *)
Definition columns_convert (data : list (jsstring * JsValue)) : bool :=
  snd (column_plan (obj_rest (lit "timestamp") data)).

(** How [insert] closes the row. *)
Definition closing_call (timestamp : option spec_float) : SenderCall :=
  match timestamp with
  | Some t => At t (lit "ms")
  | None => AtNow
  end.

(** All the calls one [insert] is to make on the sender, up to the
    conversion that throws if there is one. *)
Definition row_calls (table : jsstring) (data : list (jsstring * JsValue)) : list SenderCall :=
  match extract_timestamp data with
  | Throw _ => []
  | Ok timestamp =>
      Table table :: expected_columns data
      ++ (if columns_convert data then [closing_call timestamp; Flush] else [])
  end.

(** The end of a run in which a conversion may have thrown. *)
Definition conversion_end (converted : bool) : M unit :=
  if converted then ret tt else throw cannot_convert.

(** Whether no conversion of the record throws. *)
Definition row_converts (data : list (jsstring * JsValue)) : bool :=
  match extract_timestamp data with
  | Ok _ => columns_convert data
  | Throw _ => false
  end.

(** [row[0]] of a row that is neither null nor undefined. *)
Definition first_cell (row : JsValue) : JsValue :=
  match Get row (lit "0") with Some c => c | None => VUndefined end.

(** [v[k]] of a value that is neither null nor undefined. *)
Definition prop (v : JsValue) (k : jsstring) : JsValue :=
  match Get v k with Some x => x | None => VUndefined end.

(** The structured output of the query tool for the JSON format. *)
Definition query_output (query_text : jsstring) (dataset count columns : JsValue) : JsValue :=
  VObject [(lit "query", VString query_text);
           (lit "dataset", dataset);
           (lit "count", count);
           (lit "columns", columns)].

(** The format the query handler passes to [client.query]: [format || "json"]
    after the default of the parameter. *)
Definition handler_format (format : option jsstring) : jsstring :=
  if truthy (VString (default_format format)) then default_format format
  else lit "json".



(** ** Shutdown of the server ([server.ts]) *)

(** Whether the call of [mcpServer.close()] throws, from the number of
    calls made before. *)
Variable mcpServer_close_answer : nat -> option Thrown.

Definition mcpServer_close : MS unit :=
  fun s =>
    let s' := {| srv_state := srv_state s; srv_transport := srv_transport s;
                 srv_mcp_closes := S (srv_mcp_closes s) |} in
    match mcpServer_close_answer (srv_mcp_closes s) with
    | None => (Ok tt, s')
    | Some e => (Throw e, s')
    end.

(** [shutdown]; the first log call is not awaited and whatever it might
    throw is dropped by its own [catch]. *)
Definition shutdown : MS unit :=
  try_catchS
    (bindS (liftS (try_catch (Logger_info (lit "Shutting down QuestDB MCP server") None)
                     (fun _ => ret tt)))
       (fun _ =>
          bindS (liftS close)
            (fun _ s =>
               if srv_transport s && mcp_connected (srv_state s)
               then mcpServer_close s
               else (Ok tt, s))))
    (fun error =>
       liftS (console_error [VString (lit "Error during shutdown:");
                             thrown_value error])).




(** The errors of a computation are all in [P]. *)
Definition throws_within {A} (P : Thrown -> Prop) (m : M A) : Prop :=
  forall st e, fst (m st) = Throw e -> P e.


(** * Properties *)

(** ** Strings and the monad *)

Lemma skipn_length_app {A} (l t : list A) : skipn (List.length l) (l ++ t) = t.
Proof. induction l as [|x l IH]; simpl; auto. Qed.

Lemma skipn_length_self {A} (l : list A) : skipn (List.length l) l = [].
Proof. induction l as [|x l IH]; simpl; auto. Qed.

Lemma str_eqb_eq (a b : jsstring) : str_eqb a b = true <-> a = b.
Proof.
  revert b; induction a as [|x a IH]; destruct b as [|y b]; simpl;
    try (split; congruence).
  rewrite andb_true_iff, N.eqb_eq, IH. split.
  - intros [-> ->]; reflexivity.
  - intros H; inversion H; auto.
Qed.

Lemma str_eqb_refl (a : jsstring) : str_eqb a a = true.
Proof. apply str_eqb_eq; reflexivity. Qed.

Lemma startsWith_app (p r : jsstring) : startsWith (p ++ r) p = true.
Proof.
  induction p as [|x p IH]; cbn [startsWith app]; auto.
  rewrite N.eqb_refl; auto.
Qed.

Lemma toUpperCase_app (a b : jsstring) :
  toUpperCase (a ++ b) = toUpperCase a ++ toUpperCase b.
Proof. unfold toUpperCase. apply flat_map_app. Qed.

Lemma toUpperCase_same_letters (p w : jsstring) :
  same_letters p w = true -> toUpperCase p = map ascii_upper w.
Proof.
  revert w; induction p as [|a p IH]; destruct w as [|b w]; simpl;
    try discriminate; auto.
  intros H. apply andb_true_iff in H as [H Hs].
  apply andb_true_iff in H as [Ha Hab].
  unfold Uppercase_Mapping. rewrite Ha. simpl.
  unfold same_letter in Hab. apply N.eqb_eq in Hab. rewrite Hab.
  f_equal. apply IH; assumption.
Qed.

(** Any casing of "select" in front passes the check. *)
Lemma is_select_same_letters (q p r : jsstring) :
  trim q = p ++ r -> same_letters p (lit "select") = true -> is_select q = true.
Proof.
  intros Ht Hp. unfold is_select. rewrite Ht, toUpperCase_app.
  rewrite (toUpperCase_same_letters _ _ Hp).
  apply startsWith_app.
Qed.

(** [Number_isInteger] on a finite value with a negative exponent: the
    mantissa is a multiple of the power of two it is divided by. *)
Lemma Number_isInteger_finite (s : bool) (m : positive) (e : Z) :
  (e < 0)%Z ->
  Number_isInteger (S754_finite s m e) = true
  <-> exists z : Z, (Z.pos m = z * 2 ^ (- e))%Z.
Proof.
  intros He. unfold Number_isInteger.
  assert (Hp : (0 < 2 ^ (- e))%Z) by (apply Z.pow_pos_nonneg; lia).
  replace (0 <=? e)%Z with false by (symmetry; apply Z.leb_gt; assumption).
  cbn [orb]. rewrite Z.eqb_eq. split.
  - intros H. exists (Z.pos m / 2 ^ (- e))%Z.
    rewrite (Z.div_mod (Z.pos m) (2 ^ (- e))) at 1 by lia. lia.
  - intros [z Hz]. rewrite Hz. apply Z.mod_mul. lia.
Qed.

(** ** The HTTP request of [query] *)

Lemma query_request_requests (q format : jsstring) (st : State) :
  URL_parses exec_href = true ->
  requests_of (query_request q format) st = [query_GET q format].
Proof.
  intros Hu. unfold requests_of, query_request, new_URL, bind. fold exec_href.
  rewrite Hu. unfold ret at 1. unfold fetch, searchParams_append. simpl.
  fold (query_GET q format).
  destruct (fetch_answer env (net_log st) (query_GET q format)) as [resp|e]; simpl.
  - destruct (resp_ok resp); simpl.
    + destruct (str_eqb format (lit "json")).
      * destruct (resp_json resp); simpl; apply skipn_length_app.
      * destruct (resp_text resp); simpl; apply skipn_length_app.
    + destruct (resp_text resp); simpl; apply skipn_length_app.
  - apply skipn_length_app.
Qed.

Lemma query_request_bad_url (q format : jsstring) (st : State) :
  URL_parses exec_href = false ->
  query_request q format st = (Throw (ErrorObj (lit "Invalid URL")), st).
Proof.
  intros Hu. unfold query_request, new_URL, bind. fold exec_href.
  rewrite Hu. reflexivity.
Qed.

(** C1: a query that does not start with SELECT once trimmed and put in
    upper case is refused with the safety error, the state untouched and
    no request sent; a query that does (in particular one whose trimmed
    text starts with "select" in any casing) passes the check and goes on
    to the one GET request. *)
Theorem C1_query_select_gate (q : jsstring) (format : option jsstring) (st : State) :
  (startsWith (toUpperCase (trim q)) (lit "SELECT") = false ->
     query q format st
     = (Throw (ErrorObj (lit "Only SELECT queries are allowed for safety reasons")), st)
     /\ requests_of (query q format) st = [])
  /\ (startsWith (toUpperCase (trim q)) (lit "SELECT") = true ->
     query q format st = query_request q (default_format format) st
     /\ (URL_parses exec_href = true ->
         requests_of (query q format) st = [query_GET q (default_format format)]))
  /\ (forall p r, trim q = p ++ r -> same_letters p (lit "select") = true ->
     startsWith (toUpperCase (trim q)) (lit "SELECT") = true).
Proof.
  fold (is_select q). split; [|split].
  - intros H. unfold requests_of, query. rewrite H. simpl. split; [reflexivity|].
    apply skipn_length_self.
  - intros H.
    assert (E : query q format = query_request q (default_format format)).
    { unfold query. rewrite H. reflexivity. }
    rewrite E. split; [reflexivity|].
    intros Hu. apply query_request_requests; assumption.
  - intros p r. apply is_select_same_letters.
Qed.

(** ** The identifier pattern *)




Lemma trimEnd_snoc (s : jsstring) (c : N) :
  isWhiteSpace c = false -> trimEnd (s ++ [c]) = s ++ [c].
Proof.
  intros H. unfold trimEnd. rewrite rev_app_distr. simpl. rewrite H.
  simpl. rewrite rev_involutive. reflexivity.
Qed.

(** The generated introspection query passes the safety check. *)
Lemma describe_sql_is_select (table : jsstring) : is_select (describe_sql table) = true.
Proof.
  unfold is_select, describe_sql, trim.
  change (lit "SELECT * FROM table_columns('")
    with (lit "SELECT" ++ lit " * FROM table_columns('").
  change (lit "')") with ([39] ++ [41]).
  set (rest := lit " * FROM table_columns('").
  assert (E : trimStart ((lit "SELECT" ++ rest) ++ table ++ [39] ++ [41])
              = lit "SELECT" ++ (rest ++ table ++ [39]) ++ [41]).
  { rewrite <- !app_assoc. reflexivity. }
  rewrite E. rewrite app_assoc, trimEnd_snoc by reflexivity.
  rewrite <- app_assoc, toUpperCase_app.
  change (toUpperCase (lit "SELECT")) with (lit "SELECT").
  apply startsWith_app.
Qed.


(** ** The logger never throws *)

Lemma Logger_emit_ok lvl tag message metadata (st : State) :
  exists st', Logger_emit lvl tag message metadata st = (Ok tt, st')
              /\ same_adapter st' st.
Proof.
  unfold Logger_emit, try_catch, sendLoggingMessage, console_error, same_adapter.
  destruct (mcp_connected st) eqn:Hc.
  - destruct (sendLoggingMessage_answer env (mcp_log st) _) as [e|];
      eexists; (split; [reflexivity|]); simpl; auto.
  - eexists; (split; [reflexivity|]); simpl; auto.
Qed.

(** ** The calls of [insert] on the sender *)

Lemma append_sender_log_nil (st : State) : append_sender_log [] st = st.
Proof. destruct st; unfold append_sender_log; simpl. rewrite app_nil_r. reflexivity. Qed.

Lemma append_sender_log_app (a b : list (N * SenderCall)) (st : State) :
  append_sender_log b (append_sender_log a st) = append_sender_log (a ++ b) st.
Proof. unfold append_sender_log; simpl. rewrite app_assoc. reflexivity. Qed.

Lemma sender_call_run (h : N) (c : SenderCall) (st : State) :
  exists r, sender_call h c st = (r, append_sender_log [(h, c)] st).
Proof.
  unfold sender_call. destruct (sender_answer env (sender_log st) h c); eexists; reflexivity.
Qed.

Lemma prefix_of_refl {A} (l : list A) : prefix_of l l.
Proof. exists []. rewrite app_nil_r. reflexivity. Qed.

Lemma prefix_of_nil {A} (l : list A) : prefix_of [] l.
Proof. exists l. reflexivity. Qed.

Lemma prefix_of_cons {A} (x : A) (a b : list A) :
  prefix_of a b -> prefix_of (x :: a) (x :: b).
Proof. intros [t ->]. exists t. reflexivity. Qed.

Lemma prefix_of_app {A} (p a b : list A) :
  prefix_of a b -> prefix_of (p ++ a) (p ++ b).
Proof. intros [t ->]. exists t. rewrite app_assoc. reflexivity. Qed.

Lemma run_calls_log (h : N) (cs : list SenderCall) (st : State) :
  exists done,
    snd (run_calls h cs st) = append_sender_log (map (pair h) done) st
    /\ prefix_of done cs
    /\ (forall u, fst (run_calls h cs st) = Ok u -> done = cs).
Proof.
  revert st; induction cs as [|c r IH]; intros st; simpl.
  - exists []. simpl. rewrite append_sender_log_nil.
    split; [reflexivity|]. split; [apply prefix_of_refl | reflexivity].
  - unfold bind. destruct (sender_call_run h c st) as [res E]. rewrite E.
    destruct res as [[]|e].
    + destruct (IH (append_sender_log [(h, c)] st)) as (done & Hs & Hp & Hok).
      exists (c :: done). rewrite Hs, append_sender_log_app. simpl.
      split; [reflexivity|]. split; [apply prefix_of_cons; assumption|].
      intros u Hu. f_equal. eapply Hok; eassumption.
    + exists [c]. simpl. split; [reflexivity|].
      split; [apply prefix_of_cons, prefix_of_nil | discriminate].
Qed.

Lemma String_of_throws (v : JsValue) (e : Thrown) :
  String_of v = Throw e -> e = cannot_convert.
Proof. unfold String_of. destruct (ToString v); [discriminate|]. congruence. Qed.

Lemma column_call_throws (key : jsstring) (value : JsValue) (e : Thrown) :
  column_call key value = Throw e -> e = cannot_convert.
Proof.
  destruct value as [| |b|x|s|l|o]; cbn [column_call typeof]; try discriminate;
    match goal with |- context [String_of ?v] =>
      destruct (String_of v) eqn:E; [discriminate|] end;
    intros H; injection H as <-; apply (String_of_throws _ _ E).
Qed.

Lemma extract_timestamp_throws (data : list (jsstring * JsValue)) (e : Thrown) :
  extract_timestamp data = Throw e -> e = cannot_convert.
Proof.
  unfold extract_timestamp.
  destruct (lookup (lit "timestamp") data) as [[| |b|x|s|l|o]|]; try discriminate;
    match goal with |- context [String_of ?v] =>
      destruct (String_of v) eqn:E; [discriminate|] end;
    intros H; injection H as <-; apply (String_of_throws _ _ E).
Qed.

Lemma run_calls_app (h : N) (a b : list SenderCall) (st : State) :
  run_calls h (a ++ b) st = (run_calls h a ;;; run_calls h b) st.
Proof.
  revert st; induction a as [|c a IH]; intros st; simpl; [reflexivity|].
  unfold bind. destruct (sender_call h c st) as [[[]|e] st1]; [|reflexivity].
  rewrite IH. reflexivity.
Qed.

(** The loop of [insert] is the run of the planned column calls, followed
    by the TypeError when a conversion throws. *)
Lemma add_columns_run (h : N) (entries : list (jsstring * JsValue)) (st : State) :
  add_columns h entries st
  = (run_calls h (fst (column_plan entries)) ;;;
     conversion_end (snd (column_plan entries))) st.
Proof.
  revert st; induction entries as [|[k v] r IH]; intros st; [reflexivity|].
  cbn [add_columns column_plan]. destruct (isNullish v).
  - unfold bind at 1. cbn [ret]. apply IH.
  - destruct (column_call k v) as [c|e] eqn:Ec.
    + cbn [fst snd run_calls settle]. unfold bind. cbn [ret].
      destruct (sender_call h c st) as [[[]|e] st1]; [|reflexivity].
      rewrite IH. reflexivity.
    + apply column_call_throws in Ec. subst e. reflexivity.
Qed.

Lemma insert_run (table : jsstring) (data : list (jsstring * JsValue)) (st : State) :
  insert table data st
  = (h <- getSender ;;
     run_calls h (row_calls table data) ;;; conversion_end (row_converts data)) st.
Proof.
  unfold insert, bind, row_calls, row_converts.
  destruct (getSender st) as [[h|e] st1]; [|reflexivity].
  destruct (extract_timestamp data) as [timestamp|e] eqn:Et.
  - cbn [settle ret run_calls]. unfold bind.
    destruct (sender_call h (Table table) st1) as [[[]|e] st2]; [|reflexivity].
    rewrite add_columns_run, run_calls_app. unfold bind.
    fold (expected_columns data). fold (columns_convert data).
    destruct (run_calls h (expected_columns data) st2) as [[[]|e] st3];
      [|reflexivity].
    destruct (columns_convert data); cbn [conversion_end ret throw run_calls];
      [|reflexivity].
    unfold bind, closing_call.
    destruct timestamp as [t|];
      match goal with |- context [sender_call h ?c st3] =>
        destruct (sender_call h c st3) as [[[]|e] st4]; [|reflexivity] end;
      destruct (sender_call h Flush st4) as [[[]|e] st5]; reflexivity.
  - apply extract_timestamp_throws in Et. subst e. reflexivity.
Qed.

(** [getSender], case by case. *)
Lemma getSender_cases (st : State) :
  match this_sender st with
  | Some h => getSender st = (Ok h, st)
  | None =>
      let h := N.of_nat (List.length (sender_log st)) in
      match sender_answer env (sender_log st) h (FromConfig buildConfigString) with
      | Some e =>
          getSender st
          = (Throw e, append_sender_log [(h, FromConfig buildConfigString)] st)
      | None =>
          exists st1,
            getSender st = (Ok h, st1)
            /\ this_sender st1 = Some h
            /\ sender_log st1 = sender_log st ++ [(h, FromConfig buildConfigString)]
            /\ net_log st1 = net_log st
      end
  end.
Proof.
  unfold getSender. destruct (this_sender st) as [h|]; [reflexivity|].
  unfold bind, Sender_fromConfig. cbv zeta.
  destruct (sender_answer env (sender_log st) _ _) as [e|]; [reflexivity|].
  unfold Logger_info.
  match goal with |- context [Logger_emit ?l ?t ?m ?md ?s] =>
    destruct (Logger_emit_ok l t m md s) as (st' & E & Ht & Hl & Hn & _) end.
  rewrite E. exists st'. simpl in *. auto.
Qed.

(** What [getSender] does to the sender's log. *)
Lemma getSender_log (st : State) :
  exists pre,
    sender_log (snd (getSender st)) = sender_log st ++ pre
    /\ net_log (snd (getSender st)) = net_log st
    /\ match fst (getSender st) with
       | Ok h =>
           (this_sender st = Some h /\ pre = [])
           \/ (this_sender st = None /\ pre = [(h, FromConfig buildConfigString)])
       | Throw _ =>
           this_sender st = None
           /\ pre = [(N.of_nat (List.length (sender_log st)),
                      FromConfig buildConfigString)]
       end
    /\ (forall h, fst (getSender st) = Ok h -> this_sender (snd (getSender st)) = Some h).
Proof.
  pose proof (getSender_cases st) as H.
  destruct (this_sender st) as [h|] eqn:Hs.
  - exists []. rewrite H. simpl. rewrite app_nil_r. repeat split; auto.
    intros h' E. injection E as <-. assumption.
  - exists [(N.of_nat (List.length (sender_log st)), FromConfig buildConfigString)].
    cbv zeta in H.
    destruct (sender_answer env (sender_log st) _ _) as [e|].
    + rewrite H. simpl. repeat split; auto. discriminate.
    + destruct H as (st1 & -> & Ht & Hl & Hn). simpl.
      repeat split; auto. intros h' E. injection E as <-. assumption.
Qed.

Lemma column_call_is_column (key : jsstring) (value : JsValue) (c : SenderCall) :
  column_call key value = Ok c ->
  is_column_call c = true
  /\ column_name c = key
  /\ (forall v, c <> StringColumn key v).
Proof.
  destruct value as [| |b|x|s|l|o]; cbn [column_call typeof];
    try destruct (Number_isInteger x);
    try match goal with |- context [String_of ?v] => destruct (String_of v) end;
    intros H; try discriminate H; injection H as <-;
    (split; [reflexivity | split; [reflexivity | discriminate]]).
Qed.

Lemma in_column_plan (entries : list (jsstring * JsValue)) (c : SenderCall) :
  In c (fst (column_plan entries)) ->
  exists key value,
    In (key, value) entries /\ isNullish value = false /\ column_call key value = Ok c.
Proof.
  induction entries as [|[k v] r IH]; cbn [column_plan]; [intros []|].
  destruct (isNullish v) eqn:Hn.
  - intros H. destruct (IH H) as (k' & v' & Hin & Hv & Hc).
    exists k', v'. split; [right; assumption | auto].
  - destruct (column_call k v) as [c0|e] eqn:Ec; cbn [fst]; [|intros []].
    intros [<-|H].
    + exists k, v. split; [left; reflexivity | auto].
    + destruct (IH H) as (k' & v' & Hin & Hv & Hc).
      exists k', v'. split; [right; assumption | auto].
Qed.

(** When the loop gets to its end, its calls are those of all the fields
    that are not null. *)
Lemma column_plan_complete (entries : list (jsstring * JsValue)) :
  snd (column_plan entries) = true ->
  map Ok (fst (column_plan entries))
  = map (fun kv => column_call (fst kv) (snd kv))
      (filter (fun kv => negb (isNullish (snd kv))) entries).
Proof.
  induction entries as [|[k v] r IH]; cbn [column_plan filter fst snd]; [reflexivity|].
  destruct (isNullish v); cbn [negb]; [assumption|].
  destruct (column_call k v) as [c|e] eqn:Ec; cbn [fst snd map]; [|discriminate].
  intros H. rewrite (IH H), Ec. reflexivity.
Qed.




Lemma run_row_log (h : N) (cs : list SenderCall) (converted : bool) (st : State) :
  exists done,
    snd ((run_calls h cs ;;; conversion_end converted) st)
    = append_sender_log (map (pair h) done) st
    /\ prefix_of done cs
    /\ (forall u, fst ((run_calls h cs ;;; conversion_end converted) st) = Ok u ->
        done = cs /\ converted = true).
Proof.
  destruct (run_calls_log h cs st) as (done & Hs & Hp & Hok).
  exists done. unfold bind.
  destruct (run_calls h cs st) as [[[]|e] st1]; cbn [fst snd] in *.
  - destruct converted; cbn [conversion_end ret throw fst snd].
    + split; [assumption|]. split; [assumption|]. intros u _. split; [|reflexivity].
      apply (Hok tt). reflexivity.
    + split; [assumption|]. split; [assumption|]. discriminate.
  - split; [assumption|]. split; [assumption|]. discriminate.
Qed.

(** The calls of one [insert]: the creation of the sender when there is
    none, then the calls of the row up to the first one the sender refuses. *)
Lemma insert_calls (table : jsstring) (data : list (jsstring * JsValue)) (st : State) :
  exists pre h done,
    sender_calls_of (insert table data) st = pre ++ map (pair h) done
    /\ match this_sender st with
       | Some h' => pre = [] /\ h = h'
       | None => pre = [(h, FromConfig buildConfigString)]
       end
    /\ prefix_of done (row_calls table data)
    /\ (forall u, fst (insert table data st) = Ok u -> done = row_calls table data).
Proof.
  unfold sender_calls_of. rewrite insert_run. unfold bind at 1 3.
  destruct (getSender_log st) as (pre & Hl & _ & Hr & _).
  destruct (getSender st) as [[h|e] st1]; cbn [fst snd] in *.
  - destruct (run_row_log h (row_calls table data) (row_converts data) st1)
      as (done & Hs & Hp & Hok).
    exists pre, h, done. rewrite Hs. cbn [append_sender_log sender_log].
    rewrite Hl, <- app_assoc, skipn_length_app.
    split; [reflexivity|].
    split; [destruct Hr as [[-> ->]|[-> ->]]; auto|].
    split; [assumption|]. intros u Hu. apply (Hok u Hu).
  - destruct Hr as [-> ->]. rewrite Hl, skipn_length_app.
    exists [(N.of_nat (List.length (sender_log st)), FromConfig buildConfigString)],
      (N.of_nat (List.length (sender_log st))), [].
    simpl. split; [reflexivity|]. split; [auto|].
    split; [apply prefix_of_nil | discriminate].
Qed.

(** [insert] returns only when every conversion succeeded. *)
Lemma insert_ok_converts (table : jsstring) (data : list (jsstring * JsValue))
  (st : State) (u : unit) :
  fst (insert table data st) = Ok u -> row_converts data = true.
Proof.
  rewrite insert_run. unfold bind at 1.
  destruct (getSender st) as [[h|e] st1]; [|discriminate].
  intros H.
  destruct (run_row_log h (row_calls table data) (row_converts data) st1)
    as (done & _ & _ & Hok).
  apply (Hok u H).
Qed.

Lemma insert_column_calls (table : jsstring) (data : list (jsstring * JsValue)) (st : State) :
  exists done,
    filter is_column_call (map snd (sender_calls_of (insert table data) st))
    = filter is_column_call done
    /\ (forall h c, In (h, c) (sender_calls_of (insert table data) st) ->
        is_column_call c = true -> In c done)
    /\ prefix_of done (row_calls table data)
    /\ (forall u, fst (insert table data st) = Ok u -> done = row_calls table data).
Proof.
  destruct (insert_calls table data st) as (pre & h & done & E & Hpre & Hp & Hok).
  assert (Hpre' : pre = [] \/ pre = [(h, FromConfig buildConfigString)]).
  { destruct (this_sender st); [left; apply Hpre | right; apply Hpre]. }
  clear Hpre.
  exists done. rewrite E, map_app, filter_app, map_map, map_id.
  split; [|split; [|split; assumption]].
  - destruct Hpre' as [-> | ->]; reflexivity.
  - intros h' c Hin Hc. apply in_app_or in Hin as [Hin|Hin].
    + destruct Hpre' as [-> | ->]; [contradiction|].
      destruct Hin as [Hin|[]]. injection Hin as _ <-. discriminate.
    + apply in_map_iff in Hin as (c' & Hc' & Hin). injection Hc' as _ <-. assumption.
Qed.

Lemma in_prefix_of {A} (x : A) (a b : list A) : prefix_of a b -> In x a -> In x b.
Proof. intros [t ->] H. apply in_or_app. left. assumption. Qed.

Lemma in_row_calls_column (table : jsstring) (data : list (jsstring * JsValue))
  (c : SenderCall) :
  In c (row_calls table data) -> is_column_call c = true ->
  exists key value,
    In (key, value) (column_entries data) /\ column_call key value = Ok c.
Proof.
  unfold row_calls. destruct (extract_timestamp data) as [timestamp|e]; [|intros []].
  intros [<-|H] Hc; [discriminate|].
  apply in_app_or in H as [H|H].
  - unfold expected_columns in H. apply in_column_plan in H as (k & v & Hin & Hv & Hk).
    exists k, v. split; [|assumption].
    unfold column_entries. apply filter_In. split; [assumption|].
    cbn [snd]. rewrite Hv. reflexivity.
  - destruct (columns_convert data); [|contradiction].
    destruct H as [<-|[<-|[]]]; [destruct timestamp|]; discriminate.
Qed.


(** C5: every column call of an [insert] carries the name of a field of
    the record whose value is neither null nor undefined, and that name is
    not [timestamp]: null and undefined fields are skipped and the
    [timestamp] key is never sent as a column. *)
Theorem C5_insert_skips_null_and_timestamp (table : jsstring)
  (data : list (jsstring * JsValue)) (st : State) (h : N) (c : SenderCall) :
  In (h, c) (sender_calls_of (insert table data) st) ->
  is_column_call c = true ->
  column_name c <> lit "timestamp"
  /\ lookup (lit "timestamp") (obj_rest (lit "timestamp") data) = None
  /\ exists value,
       In (column_name c, value) data
       /\ isNullish value = false
       /\ column_call (column_name c) value = Ok c.
Proof.
  intros Hin Hc.
  destruct (insert_column_calls table data st) as (done & _ & Hd & Hp & _).
  apply (Hd h c Hin) in Hc as Hdone.
  apply (in_prefix_of _ _ _ Hp) in Hdone.
  apply in_row_calls_column in Hdone as (k & v & Hkv & Hk); [|assumption].
  rewrite (proj1 (proj2 (column_call_is_column k v c Hk))).
  unfold column_entries, obj_rest in Hkv.
  apply filter_In in Hkv as [Hkv Hnull]. apply filter_In in Hkv as [Hkv Hts].
  simpl in Hnull, Hts. apply negb_true_iff in Hnull, Hts.
  split; [|split].
  - intros ->. rewrite str_eqb_refl in Hts. discriminate.
  - unfold obj_rest. clear. induction data as [|[k v] r IH]; [reflexivity|].
    cbn [filter fst]. destruct (str_eqb k (lit "timestamp")) eqn:E;
      cbn [negb lookup]; [assumption|].
    destruct (str_eqb (lit "timestamp") k) eqn:E'; [|assumption].
    apply str_eqb_eq in E'. subst k. rewrite str_eqb_refl in E. discriminate.
  - exists v. auto.
Qed.

(** ** Where the errors of [insert] come from *)

Lemma run_calls_throw (h : N) (cs : list SenderCall) (st : State) (e : Thrown) :
  fst (run_calls h cs st) = Throw e ->
  exists hist c, In c cs /\ sender_answer env hist h c = Some e.
Proof.
  revert st; induction cs as [|c r IH]; intros st; simpl; [discriminate|].
  unfold bind, sender_call.
  destruct (sender_answer env (sender_log st) h c) as [e'|] eqn:Ha; simpl.
  - intros E. injection E as ->. exists (sender_log st), c. auto.
  - intros E. apply IH in E as (hist & c' & Hin & Hc'). exists hist, c'. auto.
Qed.

Lemma getSender_throw (st : State) (e : Thrown) :
  fst (getSender st) = Throw e ->
  exists hist h, sender_answer env hist h (FromConfig buildConfigString) = Some e.
Proof.
  pose proof (getSender_cases st) as H.
  destruct (this_sender st) as [h|]; [rewrite H; discriminate|].
  cbv zeta in H.
  destruct (sender_answer env (sender_log st) _ _) as [e'|] eqn:Ha.
  - rewrite H. simpl. intros E. injection E as ->. eauto.
  - destruct H as (st1 & -> & _). discriminate.
Qed.

(** Whatever [insert] throws was thrown by the sender (or by its creation),
    or is the error of a conversion to a string. *)
Lemma insert_throw_from_sender (table : jsstring) (data : list (jsstring * JsValue))
  (st : State) (e : Thrown) :
  fst (insert table data st) = Throw e ->
  (exists hist h c,
      sender_answer env hist h c = Some e
      /\ (c = FromConfig buildConfigString \/ In c (row_calls table data)))
  \/ (e = cannot_convert /\ row_converts data = false).
Proof.
  rewrite insert_run. unfold bind.
  destruct (getSender st) as [[h|e'] st1] eqn:Hg.
  - destruct (run_calls h (row_calls table data) st1) as [[[]|e1] st2] eqn:Hr.
    + destruct (row_converts data); cbn [conversion_end ret throw fst];
        [discriminate|].
      intros E. injection E as <-. right. auto.
    + cbn [fst]. intros E. injection E as ->. left.
      destruct (run_calls_throw h (row_calls table data) st1 e) as (hist & c & Hin & Hc);
        [rewrite Hr; reflexivity|].
      exists hist, h, c. auto.
  - simpl. intros E. injection E as ->. left.
    destruct (getSender_throw st e) as (hist & h & Hc); [rewrite Hg; reflexivity|].
    exists hist, h, (FromConfig buildConfigString). auto.
Qed.

(** C4 (as the code has it): a numeric [timestamp] is used as it is, and
    any other one that is present is turned into
    [Date.parse(String(timestamp))], which is [NaN] for a text that is no
    date: no check follows, and the row is closed with
    [at(<that number>, "ms")], a call that has been made when [insert]
    returns.  The coercion raises an error in one case only, a value that
    has no conversion to a string (an object with a [toString] property of
    its own): [insert] then throws that [TypeError] once the sender is
    there and before the row is started.  Whatever [insert] throws is an
    error of the sender or that [TypeError]. *)
Theorem C4_timestamp_coercion (table : jsstring) (data : list (jsstring * JsValue))
  (v : JsValue) (st : State) :
  lookup (lit "timestamp") data = Some v ->
  v <> VUndefined ->
  extract_timestamp data
  = match v with
    | VNumber x => Ok (Some x)
    | _ => match ToString v with
           | Some s => Ok (Some (Date_parse s))
           | None => Throw cannot_convert
           end
    end
  /\ (forall t u,
        extract_timestamp data = Ok (Some t) ->
        fst (insert table data st) = Ok u ->
        exists h, In (h, At t (lit "ms")) (sender_calls_of (insert table data) st))
  /\ (forall e0,
        extract_timestamp data = Throw e0 ->
        e0 = cannot_convert
        /\ (forall u, fst (insert table data st) <> Ok u)
        /\ (forall h c, In (h, c) (sender_calls_of (insert table data) st) ->
            c = FromConfig buildConfigString)
        /\ (forall h, this_sender st = Some h ->
            insert table data st = (Throw cannot_convert, st)))
  /\ (forall e, fst (insert table data st) = Throw e ->
      (exists hist h c,
          sender_answer env hist h c = Some e
          /\ (c = FromConfig buildConfigString \/ In c (row_calls table data)))
      \/ e = cannot_convert).
Proof.
  intros Hl Hv.
  split; [|split; [|split]].
  - unfold extract_timestamp, String_of. rewrite Hl.
    destruct v as [| |b|x|s|l|o]; try reflexivity; try contradiction;
      match goal with |- context [ToString ?w] => destruct (ToString w) end;
      reflexivity.
  - intros t u Et Hu.
    destruct (insert_calls table data st) as (pre & h & done & E & _ & _ & Hok).
    pose proof (insert_ok_converts table data st u Hu) as Hc.
    unfold row_converts in Hc. rewrite Et in Hc.
    exists h. rewrite E, (Hok u Hu). apply in_or_app. right.
    apply in_map. unfold row_calls. rewrite Et, Hc. right. apply in_or_app. right.
    left. reflexivity.
  - intros e0 Et. split; [|split; [|split]].
    + apply extract_timestamp_throws in Et. assumption.
    + intros u Hu. apply insert_ok_converts in Hu. unfold row_converts in Hu.
      rewrite Et in Hu. discriminate.
    + intros h c Hin.
      destruct (insert_calls table data st) as (pre & h' & done & E & Hpre & Hp & _).
      unfold row_calls in Hp. rewrite Et in Hp.
      destruct Hp as [r Hr]. symmetry in Hr. apply app_eq_nil in Hr as [-> _].
      rewrite E, app_nil_r in Hin.
      destruct (this_sender st); [destruct Hpre as [-> _]; contradiction|].
      subst pre. destruct Hin as [Hin|[]]. injection Hin as _ <-. reflexivity.
    + intros h Hh. rewrite insert_run. unfold bind.
      pose proof (getSender_cases st) as Hg. rewrite Hh in Hg. rewrite Hg.
      unfold row_calls, row_converts. rewrite Et. reflexivity.
  - intros e He. apply insert_throw_from_sender in He as [H|[-> _]]; auto.
Qed.

(** ** [close] *)

Lemma close_cases (st : State) :
  match this_sender st with
  | None => close st = (Ok tt, st)
  | Some _ => exists st1, close st = (Ok tt, st1) /\ this_sender st1 = None
  end.
Proof.
  unfold close. destruct (this_sender st) as [h|]; [|reflexivity].
  unfold bind, try_catch.
  destruct (sender_call_run h Flush st) as [r1 E1]. rewrite E1.
  destruct r1 as [[]|e1]; [|eexists; split; reflexivity].
  destruct (sender_call_run h Close (append_sender_log [(h, Flush)] st)) as [r2 E2].
  rewrite E2. destruct r2 as [[]|e2]; [|eexists; split; reflexivity].
  unfold Logger_info.
  match goal with |- context [Logger_emit ?l ?t ?m ?md ?s] =>
    destruct (Logger_emit_ok l t m md s) as (st' & E & _) end.
  rewrite E. eexists; split; reflexivity.
Qed.

Lemma close_flush_fails (st : State) (h : N) (e : Thrown) :
  this_sender st = Some h ->
  sender_answer env (sender_log st) h Flush = Some e ->
  close st
  = (Ok tt,
     set_this_sender None
       (push_console [VString (lit "Error closing QuestDB connection:"); thrown_value e]
          (push_sender_log (h, Flush) st))).
Proof.
  intros Hs Hf. unfold close. rewrite Hs.
  unfold bind, try_catch, sender_call. rewrite Hf. reflexivity.
Qed.

Lemma close_close_fails (st : State) (h : N) (e : Thrown) :
  this_sender st = Some h ->
  sender_answer env (sender_log st) h Flush = None ->
  sender_answer env (sender_log st ++ [(h, Flush)]) h Close = Some e ->
  close st
  = (Ok tt,
     set_this_sender None
       (push_console [VString (lit "Error closing QuestDB connection:"); thrown_value e]
          (push_sender_log (h, Close) (push_sender_log (h, Flush) st)))).
Proof.
  intros Hs Hf Hc. unfold close. rewrite Hs.
  unfold bind, try_catch, sender_call. rewrite Hf. cbn [push_sender_log sender_log].
  rewrite Hc. reflexivity.
Qed.

(** C8: [close] never throws and leaves no sender held, whatever the
    sender answers to [flush] and [close] (a failure of either is written
    to the console and goes no further); a second [close] changes nothing
    and does not throw either; the next [insert] first creates a sender
    from the configuration string, and holds it when the creation
    succeeds. *)
Theorem C8_close_idempotent (st : State) :
  exists st1,
    close st = (Ok tt, st1)
    /\ this_sender st1 = None
    /\ close st1 = (Ok tt, st1)
    /\ (forall h e,
        this_sender st = Some h ->
        sender_answer env (sender_log st) h Flush = Some e
        \/ (sender_answer env (sender_log st) h Flush = None
            /\ sender_answer env (sender_log st ++ [(h, Flush)]) h Close = Some e) ->
        console st1
        = console st ++ [[VString (lit "Error closing QuestDB connection:");
                          thrown_value e]])
    /\ (forall table data,
        exists h rest,
          sender_calls_of (insert table data) st1
          = (h, FromConfig buildConfigString) :: rest)
    /\ (forall h st2, getSender st1 = (Ok h, st2) -> this_sender st2 = Some h).
Proof.
  assert (H : exists st1, close st = (Ok tt, st1) /\ this_sender st1 = None).
  { pose proof (close_cases st) as H. destruct (this_sender st) eqn:Hs; eauto. }
  destruct H as (st1 & Hc & Hn). exists st1.
  split; [assumption|]. split; [assumption|]. split; [|split; [|split]].
  - pose proof (close_cases st1) as H. rewrite Hn in H. assumption.
  - intros h e Hs [Hf|[Hf Hcl]].
    + rewrite (close_flush_fails st h e Hs Hf) in Hc. injection Hc as <-. reflexivity.
    + rewrite (close_close_fails st h e Hs Hf Hcl) in Hc. injection Hc as <-.
      reflexivity.
  - intros table data.
    destruct (insert_calls table data st1) as (pre & h & done & E & Hpre & _).
    rewrite Hn in Hpre. subst pre. exists h, (map (pair h) done). assumption.
  - intros h st2 Hg.
    destruct (getSender_log st1) as (pre & _ & _ & _ & Hs).
    rewrite Hg in Hs. apply Hs. reflexivity.
Qed.

(** ** [listTables] *)

Lemma Get_defined (v : JsValue) (k : jsstring) :
  isNullish v = false -> Get v k <> None.
Proof.
  destruct v; try discriminate; intros _; unfold Get; try discriminate;
    destruct (str_eqb k (lit "length")); try discriminate;
    destruct (parse_index k); try discriminate.
  destruct (nth_error _ _); discriminate.
Qed.

Lemma map_first_cell_ok (rows : list JsValue) (st : State) :
  Forall (fun row => isNullish row = false) rows ->
  map_first_cell rows st = (Ok (map first_cell rows), st).
Proof.
  induction 1 as [|row rows Hrow Hrows IH]; [reflexivity|].
  cbn [map_first_cell map]. unfold bind, get_prop, first_cell.
  destruct (Get row (lit "0")) as [c|] eqn:Hg.
  - unfold ret at 1. rewrite IH. reflexivity.
  - exfalso. apply (Get_defined _ _ Hrow Hg).
Qed.

Lemma Get_dataset_array (result : JsValue) (rows : list JsValue) :
  Get result (lit "dataset") = Some (VArray rows) -> truthy result = true.
Proof. destruct result; try discriminate; reflexivity. Qed.

(** C6 (as the code has it): when the result of the introspection query
    has no [dataset] that is an array, [listTables] returns the empty
    sequence and throws nothing; when [dataset] is an array none of whose
    rows is null or undefined, it returns [row[0]] of every row, in order
    and of the same length. *)
Theorem C6_listTables_projection (st st1 : State) (result : JsValue) :
  query listTables_sql (Some (lit "json")) st = (Ok result, st1) ->
  ((forall rows, Get result (lit "dataset") <> Some (VArray rows)) ->
     listTables st = (Ok [], st1))
  /\ (forall rows,
       Get result (lit "dataset") = Some (VArray rows) ->
       Forall (fun row => isNullish row = false) rows ->
       listTables st = (Ok (map first_cell rows), st1)
       /\ List.length (map first_cell rows) = List.length rows).
Proof.
  intros Hq. split.
  - intros Hno. unfold listTables, bind. rewrite Hq.
    destruct (truthy result) eqn:Ht; [|reflexivity].
    unfold get_prop. destruct (Get result (lit "dataset")) as [d|] eqn:Hd.
    + unfold ret at 1. destruct (truthy d); [|reflexivity].
      destruct d; try reflexivity. exfalso. apply (Hno elems). reflexivity.
    + exfalso. apply (Get_defined result (lit "dataset")); [|assumption].
      destruct result; try reflexivity; discriminate.
  - intros rows Hd Hrows. split; [|apply length_map].
    unfold listTables, bind. rewrite Hq, (Get_dataset_array _ _ Hd).
    unfold get_prop. rewrite Hd. unfold ret at 1. cbn [truthy].
    apply map_first_cell_ok. assumption.
Qed.

(** ** The handlers' recovery boundary *)

Lemma handler_catch_ok (what : jsstring) (metadata : option (list (jsstring * JsValue)))
  (e : Thrown) (message : jsstring) (st : State) :
  errorMessage e = Ok message ->
  exists st', handler_catch what metadata e st = (Ok (error_envelope message), st')
              /\ same_adapter st' st.
Proof.
  intros Hm. unfold handler_catch, bind, Logger_error. rewrite Hm.
  cbn [settle ret].
  destruct (Logger_emit_ok (lit "error") (lit "[Error]") (what ++ message)
              metadata st) as (st' & E & Hs).
  rewrite E. exists st'. split; [reflexivity | assumption].
Qed.

Lemma same_adapter_refl (st : State) : same_adapter st st.
Proof. repeat split. Qed.

(** The [catch] block throws in one case only: what was caught is no Error
    and has no conversion to a string. *)
Lemma handler_catch_cases (what : jsstring)
  (metadata : option (list (jsstring * JsValue))) (e : Thrown) (st : State) :
  (exists message st',
      errorMessage e = Ok message
      /\ handler_catch what metadata e st = (Ok (error_envelope message), st')
      /\ same_adapter st' st)
  \/ (exists v,
        e = ThrownValue v /\ ToString v = None
        /\ handler_catch what metadata e st = (Throw cannot_convert, st)).
Proof.
  destruct (errorMessage e) as [message|e'] eqn:Hm.
  - left. destruct (handler_catch_ok what metadata e message st Hm) as (st' & E & Hs).
    exists message, st'. auto.
  - right. destruct e as [m|v]; [discriminate|]. exists v.
    unfold handler_catch, bind. rewrite Hm. cbn [errorMessage] in Hm.
    unfold String_of in Hm. destruct (ToString v); [discriminate|].
    injection Hm as <-. auto.
Qed.

Lemma handler_catch_state (what : jsstring)
  (metadata : option (list (jsstring * JsValue))) (e : Thrown) (st : State) :
  same_adapter (snd (handler_catch what metadata e st)) st.
Proof.
  destruct (handler_catch_cases what metadata e st)
    as [(m & st' & _ & -> & H)|(v & _ & _ & ->)]; [assumption|].
  apply same_adapter_refl.
Qed.

(** A handler whose adapter call throws answers with the error envelope. *)
Lemma try_bind_throw {A} (op : M A) (k : A -> M Envelope) (what : jsstring)
  (metadata : option (list (jsstring * JsValue))) (e : Thrown) (message : jsstring)
  (st st1 : State) :
  errorMessage e = Ok message ->
  op st = (Throw e, st1) ->
  exists st2,
    try_catch (bind op k) (handler_catch what metadata) st
    = (Ok (error_envelope message), st2)
    /\ same_adapter st2 st1.
Proof.
  intros Hm H. unfold try_catch, bind. rewrite H. apply handler_catch_ok. assumption.
Qed.

(** *** Where a value that is no Error can come from *)


Lemma throws_within_ret {A} (P : Thrown -> Prop) (a : A) : throws_within P (ret a).
Proof. intros st e. discriminate. Qed.

Lemma throws_within_throw {A} (P : Thrown -> Prop) (e : Thrown) :
  P e -> throws_within P (@throw A e).
Proof. intros H st e' E. injection E as <-. assumption. Qed.

Lemma throws_within_settle {A} (P : Thrown -> Prop) (o : Outcome A) :
  (forall e, o = Throw e -> P e) -> throws_within P (settle o).
Proof.
  intros H. destruct o as [a|e]; [apply throws_within_ret|].
  apply throws_within_throw. apply H. reflexivity.
Qed.















(** ** The query handler's structured output *)

Lemma get_prop_defined (v : JsValue) (k : jsstring) (st : State) :
  isNullish v = false -> get_prop v k st = (Ok (prop v k), st).
Proof.
  intros Hv. unfold get_prop, prop.
  destruct (Get v k) eqn:Hg; [reflexivity|].
  exfalso. apply (Get_defined _ _ Hv Hg).
Qed.

Lemma count_or_length_defined (result : JsValue) (st : State) :
  isNullish result = false ->
  exists count,
    count_or_length result st = (Ok count, st)
    /\ (truthy (prop result (lit "count")) = true -> count = prop result (lit "count"))
    /\ (truthy (prop result (lit "count")) = false ->
        forall rows, prop result (lit "dataset") = VArray rows ->
        count = VNumber (Number_of_N (N.of_nat (List.length rows))))
    /\ (truthy (prop result (lit "count")) = false ->
        isNullish (prop result (lit "dataset")) = true ->
        count = VNumber (S754_zero false)).
Proof.
  intros Hr. unfold count_or_length, bind. rewrite (get_prop_defined _ _ _ Hr).
  destruct (truthy (prop result (lit "count"))) eqn:Hc.
  - eexists. split; [reflexivity|]. repeat split; intros; congruence.
  - rewrite (get_prop_defined _ _ _ Hr).
    destruct (isNullish (prop result (lit "dataset"))) eqn:Hn.
    + eexists. split; [reflexivity|]. split; [discriminate|]. split.
      * intros _ rows E. rewrite E in Hn. discriminate.
      * reflexivity.
    + rewrite (get_prop_defined _ _ _ Hn). eexists. split; [reflexivity|].
      split; [discriminate|]. split; [|discriminate].
      intros _ rows E. rewrite E. destruct rows; reflexivity.
Qed.

(** C9 (as the code has it): with the format omitted the handler asks
    for "json" and answers as for "json"; when the query returns a value
    that is not null, the structured output is
    [{query, dataset, count, columns}] with the query text echoed, and
    [count] is the result's count when that is truthy (present and neither
    0 nor NaN), else the length of the dataset when the dataset is an
    array, else 0 when there is no dataset. *)
Theorem C9_query_handler_json_output (q : jsstring) (result : JsValue)
  (st st1 : State) :
  query q (Some (lit "json")) st = (Ok result, st1) ->
  isNullish result = false ->
  handler_format None = lit "json"
  /\ query_handler q None st = query_handler q (Some (lit "json")) st
  /\ exists count,
      query_handler q None st
      = (Ok {| content := [text_item (JSON_stringify result)];
               structuredContent :=
                 Some (query_output q
                         (js_or (prop result (lit "dataset")) (VArray []))
                         count
                         (js_or (prop result (lit "columns")) (VArray [])));
               isError := false |}, st1)
      /\ (truthy (prop result (lit "count")) = true ->
          count = prop result (lit "count"))
      /\ (truthy (prop result (lit "count")) = false ->
          forall rows, prop result (lit "dataset") = VArray rows ->
          count = VNumber (Number_of_N (N.of_nat (List.length rows))))
      /\ (truthy (prop result (lit "count")) = false ->
          isNullish (prop result (lit "dataset")) = true ->
          count = VNumber (S754_zero false)).
Proof.
  intros H Hr. split; [reflexivity|]. split; [reflexivity|].
  destruct (count_or_length_defined result st1 Hr) as (count & Ec & H1 & H2 & H3).
  exists count. split; [|auto].
  unfold query_handler. cbv zeta.
  change (default_format None) with (lit "json").
  change (truthy (VString (lit "json"))) with true. cbv iota.
  change (str_eqb (lit "json") (lit "json")) with true. cbv iota.
  unfold try_catch, bind.
  rewrite H, (get_prop_defined _ _ _ Hr), Ec, (get_prop_defined _ _ _ Hr).
  reflexivity.
Qed.

(** ** Credentials *)





(** *** The credentials of the header can be read back *)









(** * Further properties of the adapter *)

(** ** [query]: what it sends and what it leaves alone *)

Lemma query_request_sent (q format : jsstring) (st : State) :
  URL_parses exec_href = true ->
  snd (query_request q format st) = push_net_log (query_GET q format) st.
Proof.
  intros Hu. unfold query_request, new_URL, bind. fold exec_href.
  rewrite Hu. unfold ret at 1. unfold fetch, searchParams_append. simpl.
  fold (query_GET q format).
  destruct (fetch_answer env (net_log st) (query_GET q format)) as [resp|e]; simpl;
    [|reflexivity].
  destruct (resp_ok resp); simpl.
  - destruct (str_eqb format (lit "json")).
    + destruct (resp_json resp); reflexivity.
    + destruct (resp_text resp); reflexivity.
  - destruct (resp_text resp); reflexivity.
Qed.

(** The state after [query]: unchanged, or one request longer. *)
Lemma query_state (q : jsstring) (format : option jsstring) (st : State) :
  snd (query q format st) = st
  \/ snd (query q format st) = push_net_log (query_GET q (default_format format)) st.
Proof.
  unfold query. fold (default_format format).
  destruct (is_select q); cbn [negb]; [|left; reflexivity].
  destruct (URL_parses exec_href) eqn:Hu.
  - right. apply query_request_sent; assumption.
  - left. rewrite query_request_bad_url by assumption. reflexivity.
Qed.

(** What [query] returns for a response that arrived. *)
Lemma query_response (q : jsstring) (format : option jsstring) (st : State)
  (r : Response) :
  is_select q = true ->
  URL_parses exec_href = true ->
  fetch_answer env (net_log st) (query_GET q (default_format format)) = Ok r ->
  query q format st
  = (if negb (resp_ok r)
     then match resp_text r with
          | Ok errorText =>
              Throw (ErrorObj (lit "Query failed: "
                               ++ Number_toString (Number_of_N (resp_status r))
                               ++ lit " " ++ resp_statusText r
                               ++ lit ". " ++ errorText))
          | Throw e => Throw e
          end
     else if str_eqb (default_format format) (lit "json") then resp_json r
          else match resp_text r with
               | Ok t => Ok (VString t)
               | Throw e => Throw e
               end,
     push_net_log (query_GET q (default_format format)) st).
Proof.
  intros Hs Hu Hf. unfold query. fold (default_format format). rewrite Hs. cbn [negb].
  unfold query_request, new_URL, bind. fold exec_href.
  rewrite Hu. unfold ret at 1. unfold fetch, searchParams_append. simpl.
  fold (query_GET q (default_format format)). rewrite Hf.
  destruct (resp_ok r); simpl.
  - destruct (str_eqb (default_format format) (lit "json")).
    + destruct (resp_json r); reflexivity.
    + destruct (resp_text r); reflexivity.
  - destruct (resp_text r); reflexivity.
Qed.

(** X1: [query] is the read path only.  Whatever the text, the format and
    the answer of the database, it leaves the held sender, the sender's
    log, the logging channel and the console as they were, and the
    requests it adds are none or the one GET. *)
Theorem query_touches_only_the_network (q : jsstring) (format : option jsstring)
  (st : State) :
  this_sender (snd (query q format st)) = this_sender st
  /\ sender_log (snd (query q format st)) = sender_log st
  /\ mcp_log (snd (query q format st)) = mcp_log st
  /\ console (snd (query q format st)) = console st
  /\ (requests_of (query q format) st = []
      \/ requests_of (query q format) st = [query_GET q (default_format format)]).
Proof.
  unfold requests_of.
  destruct (query_state q format st) as [E|E]; rewrite E; cbn [push_net_log
    this_sender sender_log mcp_log console net_log]; repeat split; auto.
  - left. apply skipn_length_self.
  - right. apply skipn_length_app.
Qed.

(** ** The query tool, end to end *)

Lemma query_handler_unfold (q : jsstring) (format : option jsstring) :
  query_handler q format
  = try_catch
      (result <- query q (Some (handler_format format)) ;;
       if str_eqb (default_format format) (lit "json") then
         dataset <- get_prop result (lit "dataset") ;;
         count <- count_or_length result ;;
         columns <- get_prop result (lit "columns") ;;
         ret {| content := [text_item (JSON_stringify result)];
                structuredContent :=
                  Some (query_output q (js_or dataset (VArray [])) count
                          (js_or columns (VArray [])));
                isError := false |}
       else
         ret {| content := [text_item result];
                structuredContent := None;
                isError := false |})
      (handler_catch (lit "Query failed: ") (Some [(lit "query", VString q)])).
Proof. reflexivity. Qed.

(** X2: a response of the database with a failure status becomes a tool
    answer, not an exception: the envelope has [isError: true] and the text
    ["Error: Query failed: <status> <statusText>. <body>"]; exactly the one
    request was sent and the sender is as it was. *)
Theorem query_tool_reports_http_failure (q : jsstring) (format : option jsstring)
  (st : State) (r : Response) (body : jsstring) :
  is_select q = true ->
  URL_parses exec_href = true ->
  fetch_answer env (net_log st) (query_GET q (handler_format format)) = Ok r ->
  resp_ok r = false ->
  resp_text r = Ok body ->
  exists st',
    query_handler q format st
    = (Ok {| content :=
               [{| item_type := lit "text";
                   item_text :=
                     VString (lit "Error: Query failed: "
                              ++ Number_toString (Number_of_N (resp_status r))
                              ++ lit " " ++ resp_statusText r ++ lit ". " ++ body) |}];
             structuredContent := None;
             isError := true |}, st')
    /\ same_adapter st' (push_net_log (query_GET q (handler_format format)) st).
Proof.
  intros Hs Hu Hf Hok Ht.
  pose proof (query_response q (Some (handler_format format)) st r Hs Hu Hf) as Hq.
  rewrite Hok, Ht in Hq. cbn [negb default_format] in Hq.
  rewrite query_handler_unfold.
  match type of Hq with _ = (Throw ?e, _) => set (thrown := e) in Hq end.
  destruct (try_bind_throw _
              (fun result =>
                 if str_eqb (default_format format) (lit "json") then
                   dataset <- get_prop result (lit "dataset") ;;
                   count <- count_or_length result ;;
                   columns <- get_prop result (lit "columns") ;;
                   ret {| content := [text_item (JSON_stringify result)];
                          structuredContent :=
                            Some (query_output q (js_or dataset (VArray [])) count
                                    (js_or columns (VArray [])));
                          isError := false |}
                 else
                   ret {| content := [text_item result];
                          structuredContent := None;
                          isError := false |})
              (lit "Query failed: ") (Some [(lit "query", VString q)]) thrown _ _ _
              eq_refl Hq)
    as (st' & E & Hsame).
  exists st'. split; [|assumption]. rewrite E. reflexivity.
Qed.

(** X3: with a format other than "json" (and not empty) the format is
    handed to the database as it is and the body of a successful response
    is returned as the text of the answer, without structured content and
    without any change to the state but the request. *)
Theorem query_tool_returns_raw_text (q f : jsstring) (st : State) (r : Response)
  (body : jsstring) :
  f <> [] ->
  f <> lit "json" ->
  is_select q = true ->
  URL_parses exec_href = true ->
  fetch_answer env (net_log st) (query_GET q f) = Ok r ->
  resp_ok r = true ->
  resp_text r = Ok body ->
  query_handler q (Some f) st
  = (Ok {| content := [text_item (VString body)];
           structuredContent := None;
           isError := false |},
     push_net_log (query_GET q f) st).
Proof.
  intros Hne Hnj Hs Hu Hf Hok Ht.
  assert (Hfmt : handler_format (Some f) = f).
  { unfold handler_format. cbn [default_format truthy].
    destruct f; [contradiction | reflexivity]. }
  assert (Hj : str_eqb f (lit "json") = false).
  { destruct (str_eqb f (lit "json")) eqn:E; [|reflexivity].
    apply str_eqb_eq in E. contradiction. }
  rewrite query_handler_unfold, Hfmt. cbn [default_format].
  unfold try_catch, bind.
  rewrite (query_response q (Some f) st r Hs Hu Hf).
  cbn [default_format]. rewrite Hok, Hj, Ht. cbn [negb]. reflexivity.
Qed.

(** X4: a query that fails the SELECT check is answered by the tool with
    the error envelope carrying the safety message; no request is sent and
    the sender is not touched. *)
Theorem query_tool_rejects_non_select (q : jsstring) (format : option jsstring)
  (st : State) :
  is_select q = false ->
  exists st',
    query_handler q format st
    = (Ok {| content :=
               [{| item_type := lit "text";
                   item_text :=
                     VString
                       (lit "Error: Only SELECT queries are allowed for safety reasons") |}];
             structuredContent := None;
             isError := true |},
       st')
    /\ same_adapter st' st.
Proof.
  intros Hs. rewrite query_handler_unfold.
  apply (try_bind_throw _ _ _ _
           (ErrorObj (lit "Only SELECT queries are allowed for safety reasons"))
           (lit "Only SELECT queries are allowed for safety reasons") _ _ eq_refl).
  unfold query. rewrite Hs. reflexivity.
Qed.

(** X5: a table name that fails the identifier test is answered by the
    describe tool with the error envelope naming it; no request is sent
    and the sender is not touched. *)
Theorem describe_tool_rejects_bad_name (table : jsstring) (st : State) :
  table_name_test table = false ->
  exists st',
    describe_table_handler table st
    = (Ok {| content :=
               [{| item_type := lit "text";
                   item_text := VString (lit "Error: Invalid table name: " ++ table) |}];
             structuredContent := None;
             isError := true |}, st')
    /\ same_adapter st' st.
Proof.
  intros Ht. unfold describe_table_handler.
  apply (try_bind_throw _ _ _ _ (ErrorObj (lit "Invalid table name: " ++ table))
           (lit "Invalid table name: " ++ table) _ _ eq_refl).
  unfold describeTable. rewrite Ht. reflexivity.
Qed.

(** ** [insert]: the write path *)

Lemma run_calls_frame (h : N) (cs : list SenderCall) (st : State) :
  this_sender (snd (run_calls h cs st)) = this_sender st
  /\ net_log (snd (run_calls h cs st)) = net_log st.
Proof.
  destruct (run_calls_log h cs st) as (done & -> & _). split; reflexivity.
Qed.

Lemma insert_frame (table : jsstring) (data : list (jsstring * JsValue)) (st : State) :
  this_sender (snd (insert table data st)) = this_sender (snd (getSender st))
  /\ net_log (snd (insert table data st)) = net_log st.
Proof.
  rewrite insert_run. unfold bind.
  destruct (getSender_log st) as (pre & _ & Hn & _).
  destruct (getSender st) as [[h|e] st1]; cbn [fst snd] in *.
  - destruct (run_row_log h (row_calls table data) (row_converts data) st1)
      as (done & Hs & _).
    unfold bind in Hs. rewrite Hs. auto.
  - auto.
Qed.

(** X6: neither [insert] nor the insert tool calls [fetch]: whatever the
    sender answers, they add no request to those the adapter itself makes
    to the query endpoint.  The row leaves through the calls on the sender
    only. *)
Theorem insert_never_calls_fetch (table : jsstring) (data : list (jsstring * JsValue))
  (st : State) :
  requests_of (insert table data) st = []
  /\ requests_of (insert_handler table data) st = [].
Proof.
  unfold requests_of. split.
  - rewrite (proj2 (insert_frame table data st)). apply skipn_length_self.
  - unfold insert_handler, try_catch, bind.
    pose proof (proj2 (insert_frame table data st)) as Hn.
    destruct (insert table data st) as [[[]|e] st1]; cbn [snd] in Hn.
    + unfold Logger_info.
      match goal with |- context [Logger_emit ?l ?t ?m ?md ?s] =>
        destruct (Logger_emit_ok l t m md s) as (st2 & E & _ & _ & Hn2 & _) end.
      rewrite E. cbn [snd ret]. rewrite Hn2, Hn. apply skipn_length_self.
    + destruct (handler_catch_state (lit "Insert failed: ")
                  (Some [(lit "table", VString table)]) e st1)
        as (_ & _ & Hn2 & _).
      rewrite Hn2, Hn. apply skipn_length_self.
Qed.

Lemma in_row_calls_not_FromConfig (table : jsstring) (data : list (jsstring * JsValue))
  (c : SenderCall) (cs : jsstring) :
  In c (row_calls table data) -> c <> FromConfig cs.
Proof.
  unfold row_calls. destruct (extract_timestamp data) as [timestamp|e]; [|intros []].
  intros [<-|H]; [discriminate|].
  apply in_app_or in H as [H|H].
  - unfold expected_columns in H. apply in_column_plan in H as (k & v & _ & _ & Hc).
    intros E. pose proof (proj1 (column_call_is_column k v c Hc)) as Hi.
    rewrite E in Hi. discriminate.
  - destruct (columns_convert data); [|contradiction].
    destruct H as [<-|[<-|[]]]; [destruct timestamp|]; discriminate.
Qed.

(** X7: the sender is created lazily and reused.  When the adapter holds
    a sender, [insert] creates none: every call it makes is a call on the
    held sender, none of them [Sender.fromConfig], and the adapter holds
    the same sender afterwards, whether the row was written or a call
    failed. *)
Theorem insert_reuses_held_sender (table : jsstring)
  (data : list (jsstring * JsValue)) (st : State) (h : N) :
  this_sender st = Some h ->
  this_sender (snd (insert table data st)) = Some h
  /\ (forall h' c, In (h', c) (sender_calls_of (insert table data) st) ->
      h' = h /\ forall cs, c <> FromConfig cs).
Proof.
  intros Hs. split.
  - rewrite (proj1 (insert_frame table data st)).
    pose proof (getSender_cases st) as H. rewrite Hs in H. rewrite H. assumption.
  - intros h' c Hin.
    destruct (insert_calls table data st) as (pre & h0 & done & E & Hpre & Hp & _).
    rewrite Hs in Hpre. destruct Hpre as [-> ->]. rewrite E in Hin.
    apply in_map_iff in Hin as (c' & Hc' & Hin). injection Hc' as <- <-.
    split; [reflexivity|]. intros cs.
    apply (in_row_calls_not_FromConfig table data).
    apply (in_prefix_of _ _ _ Hp). assumption.
Qed.

(** X8: when the adapter holds no sender, [insert] first calls
    [Sender.fromConfig] with the configuration string.  If that call
    throws, [insert] throws the same error, no row is started and the
    adapter still holds no sender; if it returns, the adapter holds the
    new sender from then on, even when a later call of the row fails. *)
Theorem insert_creates_sender_once (table : jsstring)
  (data : list (jsstring * JsValue)) (st : State) :
  this_sender st = None ->
  let h := N.of_nat (List.length (sender_log st)) in
  match sender_answer env (sender_log st) h (FromConfig buildConfigString) with
  | Some e =>
      insert table data st
      = (Throw e, append_sender_log [(h, FromConfig buildConfigString)] st)
  | None =>
      this_sender (snd (insert table data st)) = Some h
      /\ exists rest,
          sender_calls_of (insert table data) st
          = (h, FromConfig buildConfigString) :: map (pair h) rest
          /\ prefix_of rest (row_calls table data)
  end.
Proof.
  intros Hs. cbv zeta.
  pose proof (getSender_cases st) as H. rewrite Hs in H. cbv zeta in H.
  destruct (sender_answer env (sender_log st) _ _) as [e|] eqn:Ha.
  - rewrite insert_run. unfold bind. rewrite H. reflexivity.
  - destruct H as (st1 & Eg & Ht & Hl & _). split.
    + rewrite (proj1 (insert_frame table data st)), Eg. assumption.
    + destruct (insert_calls table data st) as (pre & h0 & done & E & Hpre & Hp & _).
      rewrite Hs in Hpre. subst pre.
      assert (Hh : h0 = N.of_nat (List.length (sender_log st))).
      { unfold sender_calls_of in E. rewrite insert_run in E. unfold bind in E.
        rewrite Eg in E.
        destruct (run_row_log (N.of_nat (List.length (sender_log st)))
                    (row_calls table data) (row_converts data) st1)
          as (done' & Hs' & _).
        unfold bind in Hs'. rewrite Hs' in E. cbn [snd append_sender_log sender_log] in E.
        rewrite Hl, <- app_assoc, skipn_length_app in E.
        cbn [app] in E. injection E as E _. symmetry. assumption. }
      exists done. rewrite E, Hh. split; [reflexivity | assumption].
Qed.

(** X9: a record without [timestamp] (no such key, or the key bound to
    [undefined]) is closed with [atNow]: no [at] call is ever made for it,
    and when [insert] returns the [atNow] call was made. *)
Theorem insert_without_timestamp_uses_atNow (table : jsstring)
  (data : list (jsstring * JsValue)) (st : State) :
  lookup (lit "timestamp") data = None
  \/ lookup (lit "timestamp") data = Some VUndefined ->
  (forall h t u, ~ In (h, At t u) (sender_calls_of (insert table data) st))
  /\ (forall u, fst (insert table data st) = Ok u ->
      exists h, In (h, AtNow) (sender_calls_of (insert table data) st)).
Proof.
  intros Hl.
  assert (Et : extract_timestamp data = Ok None).
  { unfold extract_timestamp. destruct Hl as [-> | ->]; reflexivity. }
  destruct (insert_calls table data st) as (pre & h & done & E & Hpre & Hp & Hok).
  split.
  - intros h' t u Hin. rewrite E in Hin. apply in_app_or in Hin as [Hin|Hin].
    + destruct (this_sender st); [destruct Hpre as [-> _]; contradiction|].
      subst pre. destruct Hin as [Hin|[]]. discriminate.
    + apply in_map_iff in Hin as (c & Hc & Hin). injection Hc as _ ->.
      apply (in_prefix_of _ _ _ Hp) in Hin. unfold row_calls in Hin.
      rewrite Et in Hin.
      destruct Hin as [Hin|Hin]; [discriminate|].
      apply in_app_or in Hin as [Hin|Hin].
      * unfold expected_columns in Hin.
        apply in_column_plan in Hin as (k & v & _ & _ & Hkv).
        pose proof (proj1 (column_call_is_column k v _ Hkv)) as Hcol. discriminate.
      * destruct (columns_convert data); [|contradiction].
        destruct Hin as [Hin|[Hin|[]]]; discriminate.
  - intros u Hu. pose proof (insert_ok_converts table data st u Hu) as Hc.
    unfold row_converts in Hc. rewrite Et in Hc.
    exists h. rewrite E, (Hok u Hu). apply in_or_app. right.
    apply in_map. unfold row_calls. rewrite Et, Hc. right. apply in_or_app. right.
    left. reflexivity.
Qed.

(** X10: when [insert] returns, it has written one whole row and flushed
    it: after the creation of the sender, if there was none, the calls are
    [table] with the name as given, one column call for every field that
    is neither null nor [timestamp], in the order of the fields, the
    closing call ([at] with the event time in milliseconds, [atNow]
    without one) and, last, [flush]. *)
Theorem insert_success_writes_and_flushes (table : jsstring)
  (data : list (jsstring * JsValue)) (st : State) (u : unit) :
  fst (insert table data st) = Ok u ->
  exists pre h columns timestamp,
    sender_calls_of (insert table data) st
    = pre ++ (h, Table table)
          :: map (pair h) columns
          ++ [(h, match timestamp with
                  | Some t => At t (lit "ms")
                  | None => AtNow
                  end);
              (h, Flush)]
    /\ map Ok columns
       = map (fun kv => column_call (fst kv) (snd kv)) (column_entries data)
    /\ extract_timestamp data = Ok timestamp
    /\ match this_sender st with
       | Some h' => pre = [] /\ h = h'
       | None => pre = [(h, FromConfig buildConfigString)]
       end.
Proof.
  intros Hu.
  destruct (insert_calls table data st) as (pre & h & done & E & Hpre & _ & Hok).
  pose proof (insert_ok_converts table data st u Hu) as Hc.
  unfold row_converts in Hc.
  destruct (extract_timestamp data) as [timestamp|e] eqn:Et; [|discriminate].
  exists pre, h, (expected_columns data), timestamp.
  rewrite E, (Hok u Hu). split; [|split; [|split]].
  - unfold row_calls. rewrite Et, Hc. cbn [map]. rewrite map_app. reflexivity.
  - apply column_plan_complete. assumption.
  - reflexivity.
  - assumption.
Qed.

Lemma run_calls_throw_last (h : N) (cs : list SenderCall) (st : State) (e : Thrown) :
  fst (run_calls h cs st) = Throw e ->
  exists done c,
    sender_log (snd (run_calls h cs st))
    = sender_log st ++ map (pair h) done ++ [(h, c)]
    /\ sender_answer env (sender_log st ++ map (pair h) done) h c = Some e.
Proof.
  revert st; induction cs as [|c r IH]; intros st; simpl; [discriminate|].
  unfold bind, sender_call.
  destruct (sender_answer env (sender_log st) h c) as [e'|] eqn:Ha.
  - cbn [fst snd]. intros E. injection E as ->. exists [], c.
    cbn [map app push_sender_log sender_log]. rewrite app_nil_r. auto.
  - intros E. apply IH in E as (done & c' & Hl & Hc').
    cbn [push_sender_log sender_log] in Hl, Hc'.
    exists (c :: done), c'. cbn [map app].
    rewrite Hl, <- !app_assoc in *. cbn [app] in *. auto.
Qed.

(** The calls of a row whose conversions do not all succeed: the row is
    started at most, and columns are added. *)
Lemma row_calls_unconverted (table : jsstring) (data : list (jsstring * JsValue))
  (c : SenderCall) :
  row_converts data = false -> In c (row_calls table data) ->
  c = Table table \/ is_column_call c = true.
Proof.
  unfold row_converts, row_calls.
  destruct (extract_timestamp data) as [timestamp|e]; [|intros _ []].
  intros -> [<-|H]; [left; reflexivity|]. right.
  rewrite app_nil_r in H. unfold expected_columns in H.
  apply in_column_plan in H as (k & v & _ & _ & Hc).
  apply (column_call_is_column k v c Hc).
Qed.

(** X11: [insert] stops at the first failure.  When it throws, either the
    error is the answer of the sender to the last call made, or it is the
    [TypeError] of a conversion to a string, thrown between two calls: the
    calls made are then the creation of the sender, if there was none, the
    start of the row and the columns before the field that has no
    conversion, none of them refused.  In both cases nothing is retried
    and nothing follows the failure, in particular no [flush]. *)
Theorem insert_stops_at_first_failure (table : jsstring)
  (data : list (jsstring * JsValue)) (st : State) (e : Thrown) :
  fst (insert table data st) = Throw e ->
  (exists earlier h c,
      sender_calls_of (insert table data) st = earlier ++ [(h, c)]
      /\ sender_answer env (sender_log st ++ earlier) h c = Some e)
  \/ (e = cannot_convert
      /\ row_converts data = false
      /\ (exists pre h,
            sender_calls_of (insert table data) st
            = pre ++ map (pair h) (row_calls table data)
            /\ match this_sender st with
               | Some h' => pre = [] /\ h = h'
               | None => pre = [(h, FromConfig buildConfigString)]
               end)
      /\ (forall h c, In (h, c) (sender_calls_of (insert table data) st) ->
          c <> Flush /\ c <> AtNow /\ forall t unit, c <> At t unit)).
Proof.
  intros He.
  assert (Hcases :
    (exists earlier h c,
        sender_calls_of (insert table data) st = earlier ++ [(h, c)]
        /\ sender_answer env (sender_log st ++ earlier) h c = Some e)
    \/ (e = cannot_convert
        /\ row_converts data = false
        /\ exists pre h,
            sender_calls_of (insert table data) st
            = pre ++ map (pair h) (row_calls table data)
            /\ match this_sender st with
               | Some h' => pre = [] /\ h = h'
               | None => pre = [(h, FromConfig buildConfigString)]
               end)).
  { revert He. unfold sender_calls_of. rewrite insert_run. unfold bind.
    pose proof (getSender_cases st) as Hg.
    assert (Hrow : forall h st1 pre,
      sender_log st1 = sender_log st ++ pre ->
      fst (let (o, st') := run_calls h (row_calls table data) st1 in
           match o with
           | Ok _ => conversion_end (row_converts data) st'
           | Throw e0 => (Throw e0, st')
           end) = Throw e ->
      (exists earlier h' c,
          skipn (List.length (sender_log st))
            (sender_log (snd (let (o, st') := run_calls h (row_calls table data) st1 in
                              match o with
                              | Ok _ => conversion_end (row_converts data) st'
                              | Throw e0 => (Throw e0, st')
                              end)))
          = earlier ++ [(h', c)]
          /\ sender_answer env (sender_log st ++ earlier) h' c = Some e)
      \/ (e = cannot_convert
          /\ row_converts data = false
          /\ skipn (List.length (sender_log st))
               (sender_log (snd (let (o, st') := run_calls h (row_calls table data) st1 in
                                 match o with
                                 | Ok _ => conversion_end (row_converts data) st'
                                 | Throw e0 => (Throw e0, st')
                                 end)))
             = pre ++ map (pair h) (row_calls table data))).
    { intros h st1 pre Hl.
      destruct (run_calls h (row_calls table data) st1) as [[[]|e1] st2] eqn:Hr.
      - destruct (row_converts data); cbn [conversion_end ret throw fst snd];
          [discriminate|].
        intros E. injection E as <-. right. split; [reflexivity|]. split; [reflexivity|].
        destruct (run_calls_log h (row_calls table data) st1) as (done & Hs & _ & Hok).
        rewrite Hr in Hs, Hok. cbn [fst snd] in Hs, Hok.
        rewrite (Hok tt eq_refl) in Hs. rewrite Hs.
        cbn [append_sender_log sender_log]. rewrite Hl, <- app_assoc.
        apply skipn_length_app.
      - cbn [fst snd]. intros E. injection E as ->. left.
        destruct (run_calls_throw_last h (row_calls table data) st1 e)
          as (done & c & Hl' & Hc); [rewrite Hr; reflexivity|].
        rewrite Hr in Hl'. cbn [snd] in Hl'.
        exists (pre ++ map (pair h) done), h, c.
        rewrite Hl', Hl, <- !app_assoc, skipn_length_app.
        rewrite Hl, <- app_assoc in Hc. rewrite <- ?app_assoc. auto. }
    destruct (this_sender st) as [h|] eqn:Hs.
    - rewrite Hg. intros E.
      destruct (Hrow h st [] (eq_sym (app_nil_r _)) E)
        as [H|(H1 & H2 & H3)]; [left; assumption|].
      right. split; [assumption|]. split; [assumption|]. exists [], h. auto.
    - cbv zeta in Hg.
      destruct (sender_answer env (sender_log st) _ _) as [e'|] eqn:Ha.
      + rewrite Hg. cbn [fst snd append_sender_log sender_log].
        intros E. injection E as ->. left.
        exists [], (N.of_nat (List.length (sender_log st))),
          (FromConfig buildConfigString).
        rewrite skipn_length_app, app_nil_r. auto.
      + destruct Hg as (st1 & -> & _ & Hl & _). intros E.
        destruct (Hrow (N.of_nat (List.length (sender_log st))) st1 _ Hl E)
          as [H|(H1 & H2 & H3)]; [left; assumption|].
        right. split; [assumption|]. split; [assumption|].
        eexists _, _. split; [exact H3 | reflexivity]. }
  destruct Hcases as [H|(H1 & H2 & pre & h & E & Hpre)]; [left; assumption|].
  right. split; [assumption|]. split; [assumption|]. split; [eauto|].
  intros h' c Hin. rewrite E in Hin. apply in_app_or in Hin as [Hin|Hin].
  - destruct (this_sender st); [destruct Hpre as [-> _]; contradiction|].
    subst pre. destruct Hin as [Hin|[]]. injection Hin as _ <-.
    repeat split; discriminate.
  - apply in_map_iff in Hin as (c' & Hc' & Hin). injection Hc' as _ ->.
    destruct (row_calls_unconverted table data c H2 Hin) as [->|Hc];
      [repeat split; discriminate|].
    repeat split; intros; intros ->; discriminate.
Qed.

(** ** [close]: what is called on the sender *)

(** X12: [close] on an adapter that holds a sender calls [flush] and then
    [close] on it; when [flush] throws, the sender's [close] is not
    called at all (the reference is dropped all the same).  Without a
    held sender [close] does nothing. *)
Theorem close_calls_flush_then_close (st : State) :
  match this_sender st with
  | None => close st = (Ok tt, st)
  | Some h =>
      match sender_answer env (sender_log st) h Flush with
      | Some _ => sender_calls_of close st = [(h, Flush)]
      | None => sender_calls_of close st = [(h, Flush); (h, Close)]
      end
  end.
Proof.
  destruct (this_sender st) as [h|] eqn:Hs.
  - destruct (sender_answer env (sender_log st) h Flush) as [e|] eqn:Hf.
    + unfold sender_calls_of. rewrite (close_flush_fails st h e Hs Hf).
      cbn [snd set_this_sender push_console push_sender_log sender_log].
      apply skipn_length_app.
    + unfold sender_calls_of, close. rewrite Hs.
      unfold bind, try_catch, sender_call. rewrite Hf.
      cbn [push_sender_log sender_log].
      destruct (sender_answer env (sender_log st ++ [(h, Flush)]) h Close) as [e|].
      * cbn [snd console_error set_this_sender push_console push_sender_log
               sender_log].
        rewrite <- app_assoc. apply skipn_length_app.
      * unfold Logger_info.
        match goal with |- context [Logger_emit ?l ?t ?m ?md ?s] =>
          destruct (Logger_emit_ok l t m md s) as (st' & E & _ & Hl & _) end.
        rewrite E. cbn [snd set_this_sender sender_log]. rewrite Hl.
        cbn [push_sender_log sender_log].
        rewrite <- app_assoc. apply skipn_length_app.
  - pose proof (close_cases st) as H. rewrite Hs in H. assumption.
Qed.

(** ** The read tools send at most one request *)

Lemma get_prop_state (v : JsValue) (k : jsstring) (st : State) :
  snd (get_prop v k st) = st.
Proof. unfold get_prop. destruct (Get v k); reflexivity. Qed.

Lemma map_first_cell_state (rows : list JsValue) (st : State) :
  snd (map_first_cell rows st) = st.
Proof.
  induction rows as [|row rows IH]; [reflexivity|].
  cbn [map_first_cell]. unfold bind.
  pose proof (get_prop_state row (lit "0") st) as Hg.
  destruct (get_prop row (lit "0") st) as [[c|e] st1]; cbn [snd] in Hg; subst st1;
    [|reflexivity].
  destruct (map_first_cell rows st) as [[cs|e] st2]; cbn [snd] in IH; subst st2;
    reflexivity.
Qed.

Lemma count_or_length_state (v : JsValue) (st : State) :
  snd (count_or_length v st) = st.
Proof.
  unfold count_or_length, bind.
  pose proof (get_prop_state v (lit "count") st) as H1.
  destruct (get_prop v (lit "count") st) as [[c|e] s1]; cbn [snd] in H1; subst s1;
    [|reflexivity].
  destruct (truthy c); [reflexivity|].
  pose proof (get_prop_state v (lit "dataset") st) as H2.
  destruct (get_prop v (lit "dataset") st) as [[d|e] s2]; cbn [snd] in H2; subst s2;
    [|reflexivity].
  destruct (isNullish d); [reflexivity|].
  pose proof (get_prop_state d (lit "length") st) as H3.
  destruct (get_prop d (lit "length") st) as [[l|e] s3]; cbn [snd] in H3; subst s3;
    reflexivity.
Qed.

Lemma listTables_state (st : State) :
  snd (listTables st) = snd (query listTables_sql (Some (lit "json")) st).
Proof.
  unfold listTables, bind.
  destruct (query listTables_sql (Some (lit "json")) st) as [[result|e] st1];
    [|reflexivity].
  cbn [snd]. destruct (truthy result); [|reflexivity].
  pose proof (get_prop_state result (lit "dataset") st1) as H1.
  destruct (get_prop result (lit "dataset") st1) as [[d|e] s1]; cbn [snd] in H1;
    subst s1; [|reflexivity].
  destruct (truthy d); [|reflexivity].
  destruct d; try reflexivity. apply map_first_cell_state.
Qed.

(** A handler adds no request to those of its adapter call when what
    follows the call leaves the state alone. *)
Lemma handler_net_log {A} (op : M A) (k : A -> M Envelope) (what : jsstring)
  (metadata : option (list (jsstring * JsValue))) (st : State) :
  (forall a s, snd (k a s) = s) ->
  net_log (snd (try_catch (bind op k) (handler_catch what metadata) st))
  = net_log (snd (op st)).
Proof.
  intros Hk. unfold try_catch, bind.
  destruct (op st) as [[a|e] st1]; cbn [snd].
  - specialize (Hk a st1). destruct (k a st1) as [[r|e] st2]; cbn [snd] in *.
    + congruence.
    + subst st2. apply (handler_catch_state what metadata e st1).
  - apply (handler_catch_state what metadata e st1).
Qed.

Lemma requests_of_query_cases (q : jsstring) (format : option jsstring) (st : State)
  (l : list Request) :
  l = net_log (snd (query q format st)) ->
  skipn (List.length (net_log st)) l = []
  \/ skipn (List.length (net_log st)) l = [query_GET q (default_format format)].
Proof.
  intros ->. destruct (query_state q format st) as [E|E]; rewrite E.
  - left. apply skipn_length_self.
  - right. apply skipn_length_app.
Qed.

(** X13: one tool call, at most one request.  Whatever the database
    answers, the query, list and describe tools send nothing or exactly
    the GET request of their query (the text given, the fixed listing
    query, the generated description query), never a second one. *)
Theorem read_tools_send_at_most_one_request (st : State) :
  (forall q format,
      requests_of (query_handler q format) st = []
      \/ requests_of (query_handler q format) st
         = [query_GET q (handler_format format)])
  /\ (requests_of list_tables_handler st = []
      \/ requests_of list_tables_handler st = [query_GET listTables_sql (lit "json")])
  /\ (forall table,
      requests_of (describe_table_handler table) st = []
      \/ requests_of (describe_table_handler table) st
         = [query_GET (describe_sql table) (lit "json")]).
Proof.
  split; [|split].
  - intros q format. unfold requests_of. rewrite query_handler_unfold.
    rewrite handler_net_log.
    + apply (requests_of_query_cases q (Some (handler_format format))). reflexivity.
    + intros result s. destruct (str_eqb (default_format format) (lit "json"));
        [|reflexivity].
      unfold bind.
      pose proof (get_prop_state result (lit "dataset") s) as H1.
      destruct (get_prop result (lit "dataset") s) as [[d|e] s1]; cbn [snd] in H1;
        subst s1; [|reflexivity].
      pose proof (count_or_length_state result s) as H2.
      destruct (count_or_length result s) as [[c|e] s2]; cbn [snd] in H2;
        subst s2; [|reflexivity].
      pose proof (get_prop_state result (lit "columns") s) as H3.
      destruct (get_prop result (lit "columns") s) as [[cl|e] s3]; cbn [snd] in H3;
        subst s3; reflexivity.
  - unfold requests_of, list_tables_handler. rewrite handler_net_log.
    + rewrite listTables_state.
      apply (requests_of_query_cases listTables_sql (Some (lit "json"))). reflexivity.
    + intros tables s. reflexivity.
  - intros table. unfold requests_of, describe_table_handler. rewrite handler_net_log.
    + unfold describeTable. destruct (table_name_test table); cbn [negb].
      * apply (requests_of_query_cases (describe_sql table) (Some (lit "json"))).
        reflexivity.
      * left. cbn [snd throw]. apply skipn_length_self.
    + intros result s. unfold bind.
      pose proof (get_prop_state result (lit "dataset") s) as H1.
      destruct (get_prop result (lit "dataset") s) as [[d|e] s1]; cbn [snd] in H1;
        subst s1; reflexivity.
Qed.

(** ** The list, describe and insert tools, end to end *)

Lemma listTables_sql_is_select : is_select listTables_sql = true.
Proof. reflexivity. Qed.

Lemma listTables_of_rows (st st1 : State) (result : JsValue) (rows : list JsValue) :
  query listTables_sql (Some (lit "json")) st = (Ok result, st1) ->
  Get result (lit "dataset") = Some (VArray rows) ->
  Forall (fun row => isNullish row = false) rows ->
  listTables st = (Ok (map first_cell rows), st1).
Proof.
  intros Hq Hd Hrows. unfold listTables, bind.
  rewrite Hq, (Get_dataset_array _ _ Hd).
  unfold get_prop. rewrite Hd. unfold ret at 1. cbn [truthy].
  apply map_first_cell_ok. assumption.
Qed.

(** X14: the list tool, from the response to the answer.  When the
    database answers the listing query with a JSON value whose [dataset]
    is an array of rows, none of them null, the tool returns the first
    cell of every row, in order, as [tables] and the number of rows as
    [count]; the one request sent is the fixed listing query. *)
Theorem list_tool_end_to_end (st : State) (r : Response) (result : JsValue)
  (rows : list JsValue) :
  URL_parses exec_href = true ->
  fetch_answer env (net_log st) (query_GET listTables_sql (lit "json")) = Ok r ->
  resp_ok r = true ->
  resp_json r = Ok result ->
  Get result (lit "dataset") = Some (VArray rows) ->
  Forall (fun row => isNullish row = false) rows ->
  let output :=
    VObject [(lit "tables", VArray (map first_cell rows));
             (lit "count", VNumber (Number_of_N (N.of_nat (List.length rows))))] in
  list_tables_handler st
  = (Ok {| content := [text_item (JSON_stringify output)];
           structuredContent := Some output;
           isError := false |},
     push_net_log (query_GET listTables_sql (lit "json")) st).
Proof.
  intros Hu Hf Hok Hj Hd Hrows. cbv zeta.
  pose proof (query_response listTables_sql (Some (lit "json")) st r
                listTables_sql_is_select Hu Hf) as Hq.
  rewrite Hok, Hj in Hq. cbn [negb default_format] in Hq.
  change (str_eqb (lit "json") (lit "json")) with true in Hq. cbv iota in Hq.
  unfold list_tables_handler, try_catch, bind.
  rewrite (listTables_of_rows _ _ _ _ Hq Hd Hrows), length_map. reflexivity.
Qed.

(** X15: the describe tool, from the response to the answer.  For a name
    that passes the identifier test and a successful response whose JSON
    value is not null, the tool returns [{table, columns}] where [columns]
    is the result's [dataset] when that is truthy and the whole result
    otherwise; the one request sent carries the generated query. *)
Theorem describe_tool_end_to_end (table : jsstring) (st : State) (r : Response)
  (result : JsValue) :
  table_name_test table = true ->
  URL_parses exec_href = true ->
  fetch_answer env (net_log st) (query_GET (describe_sql table) (lit "json")) = Ok r ->
  resp_ok r = true ->
  resp_json r = Ok result ->
  isNullish result = false ->
  describe_table_handler table st
  = (Ok {| content := [text_item (JSON_stringify result)];
           structuredContent :=
             Some (VObject [(lit "table", VString table);
                            (lit "columns",
                             if truthy (prop result (lit "dataset"))
                             then prop result (lit "dataset") else result)]);
           isError := false |},
     push_net_log (query_GET (describe_sql table) (lit "json")) st).
Proof.
  intros Ht Hu Hf Hok Hj Hr.
  pose proof (query_response (describe_sql table) (Some (lit "json")) st r
                (describe_sql_is_select table) Hu Hf) as Hq.
  rewrite Hok, Hj in Hq. cbn [negb default_format] in Hq.
  change (str_eqb (lit "json") (lit "json")) with true in Hq. cbv iota in Hq.
  unfold describe_table_handler, try_catch, bind, describeTable.
  rewrite Ht. cbn [negb]. rewrite Hq, (get_prop_defined _ _ _ Hr). reflexivity.
Qed.

(** X16: the insert tool answers with success whenever [insert] returned:
    the text and the structured content name the table, [isError] is not
    set, and a logging channel that fails changes nothing of that (after
    [insert] only the log is written). *)
Theorem insert_tool_success (table : jsstring) (data : list (jsstring * JsValue))
  (st : State) (u : unit) :
  fst (insert table data st) = Ok u ->
  let message := lit "Successfully inserted data into table '" ++ table ++ lit "'" in
  exists st',
    insert_handler table data st
    = (Ok {| content := [text_item (VString message)];
             structuredContent :=
               Some (VObject [(lit "success", VBool true);
                              (lit "table", VString table);
                              (lit "message", VString message)]);
             isError := false |}, st')
    /\ same_adapter st' (snd (insert table data st)).
Proof.
  intros Hu. cbv zeta. unfold insert_handler, try_catch, bind.
  destruct (insert table data st) as [[[]|e] st1]; [|discriminate].
  unfold Logger_info.
  match goal with |- context [Logger_emit ?l ?t ?m ?md ?s] =>
    destruct (Logger_emit_ok l t m md s) as (st' & E & Hs) end.
  rewrite E. exists st'. split; [reflexivity | assumption].
Qed.

(** ** The logger's two sinks *)




(** ** The generated description query *)

Lemma ident_part_not_quote (table : jsstring) :
  forallb is_ident_part table = true -> count_occ N.eq_dec table 39 = 0%nat.
Proof.
  induction table as [|c r IH]; [reflexivity|].
  cbn [forallb]. intros H. apply andb_true_iff in H as [Hc Hr].
  cbn [count_occ]. destruct (N.eq_dec c 39) as [->|_]; [discriminate Hc|].
  apply IH. assumption.
Qed.

(** X18: a name that passes the identifier test cannot leave the string
    literal it is put in: it has no quote, and the generated query has
    exactly two quote characters, the one before the name and the one
    after it. *)
Theorem describe_sql_quotes (table : jsstring) :
  table_name_test table = true ->
  ~ In 39 table
  /\ count_occ N.eq_dec (describe_sql table) 39 = 2%nat.
Proof.
  intros Ht.
  assert (H0 : count_occ N.eq_dec table 39 = 0%nat).
  { destruct table as [|c r]; [discriminate|].
    cbn [table_name_test] in Ht. apply andb_true_iff in Ht as [Hc Hr].
    apply (ident_part_not_quote (c :: r)). cbn [forallb].
    rewrite Hr, andb_true_r.
    unfold is_ident_start in Hc. unfold is_ident_part.
    apply orb_true_iff in Hc as [Hc|Hc]; [|rewrite Hc; apply orb_true_r].
    apply orb_true_iff in Hc as [Hc|Hc]; rewrite Hc; [reflexivity|].
    rewrite orb_true_r. reflexivity. }
  split.
  - apply (count_occ_not_In N.eq_dec). assumption.
  - unfold describe_sql. rewrite !count_occ_app, H0. reflexivity.
Qed.

(** ** Shutdown *)

Lemma close_frame (st : State) :
  fst (close st) = Ok tt
  /\ this_sender (snd (close st)) = None
  /\ net_log (snd (close st)) = net_log st
  /\ mcp_connected (snd (close st)) = mcp_connected st.
Proof.
  unfold close. destruct (this_sender st) as [h|] eqn:Hs; [|auto].
  unfold bind, try_catch, sender_call.
  destruct (sender_answer env (sender_log st) h Flush) as [e|];
    [cbn; auto|].
  cbn [push_sender_log sender_log].
  destruct (sender_answer env _ h Close) as [e|]; [cbn; auto|].
  unfold Logger_info.
  match goal with |- context [Logger_emit ?l ?t ?m ?md ?s] =>
    destruct (Logger_emit_ok l t m md s) as (st' & E & _ & _ & Hn & Hc) end.
  rewrite E. cbn. cbn in Hn, Hc. auto.
Qed.

(** X19: [shutdown] never throws.  It always ends with no sender held
    and sends no request; it calls [mcpServer.close()] exactly when a
    transport is set and the server is connected, once; and when that
    call throws, the error is written to the console as the last line. *)
Theorem shutdown_never_throws (s : Server) :
  exists s',
    shutdown s = (Ok tt, s')
    /\ this_sender (srv_state s') = None
    /\ net_log (srv_state s') = net_log (srv_state s)
    /\ srv_mcp_closes s'
       = (if srv_transport s && mcp_connected (srv_state s)
          then S (srv_mcp_closes s) else srv_mcp_closes s)
    /\ (forall e,
        srv_transport s && mcp_connected (srv_state s) = true ->
        mcpServer_close_answer (srv_mcp_closes s) = Some e ->
        exists earlier,
          console (srv_state s')
          = earlier ++ [[VString (lit "Error during shutdown:"); thrown_value e]]).
Proof.
  unfold shutdown, try_catchS, bindS, liftS, try_catch, Logger_info.
  destruct (Logger_emit_ok (lit "info") (lit "[Info]")
              (lit "Shutting down QuestDB MCP server") None (srv_state s))
    as (st1 & E1 & _ & _ & Hn1 & Hc1).
  rewrite E1. cbn [srv_transport srv_state srv_mcp_closes].
  destruct (close_frame st1) as (Hok & Hs2 & Hn2 & Hc2).
  destruct (close st1) as [[[]|e2] st2]; cbn [fst snd] in *; [|discriminate].
  cbn [srv_transport srv_state srv_mcp_closes].
  rewrite Hc2, Hc1.
  destruct (srv_transport s && mcp_connected (srv_state s)) eqn:Hb.
  - unfold mcpServer_close. cbn [srv_mcp_closes srv_state srv_transport].
    destruct (mcpServer_close_answer (srv_mcp_closes s)) as [e|] eqn:Ha.
    + eexists. split; [reflexivity|]. cbn.
      repeat split; try congruence.
      intros e' _ E. injection E as <-. exists (console st2). reflexivity.
    + eexists. split; [reflexivity|]. cbn.
      repeat split; try congruence; intros; discriminate.
  - eexists. split; [reflexivity|]. cbn.
    repeat split; try congruence; intros; discriminate.
Qed.

(** ** Configuration from the environment *)

Lemma env_or_nonempty (e : ProcessEnv) (k fallback : jsstring) :
  fallback <> [] -> env_or e k fallback <> [].
Proof.
  intros Hf. unfold env_or. destruct (getenv k e) as [[|c v]|]; cbn; try assumption.
  discriminate.
Qed.

(** X20: [loadConfig] treats a variable that is set to the empty text
    like one that is not set: the host is then "localhost", the port
    9000, and the flush settings are absent; the host is never empty. *)
Theorem loadConfig_defaults (e : ProcessEnv) :
  host (loadConfig e) <> []
  /\ (getenv (lit "QUESTDB_HOST") e = None \/ getenv (lit "QUESTDB_HOST") e = Some [] ->
      host (loadConfig e) = lit "localhost")
  /\ (getenv (lit "QUESTDB_PORT") e = None \/ getenv (lit "QUESTDB_PORT") e = Some [] ->
      port (loadConfig e) = Number_of_N 9000)
  /\ (getenv (lit "QUESTDB_AUTO_FLUSH_ROWS") e = None
      \/ getenv (lit "QUESTDB_AUTO_FLUSH_ROWS") e = Some [] ->
      autoFlushRows (loadConfig e) = None)
  /\ (getenv (lit "QUESTDB_AUTO_FLUSH_INTERVAL") e = None
      \/ getenv (lit "QUESTDB_AUTO_FLUSH_INTERVAL") e = Some [] ->
      autoFlushInterval (loadConfig e) = None).
Proof.
  unfold loadConfig; cbn [host port autoFlushRows autoFlushInterval].
  split; [apply env_or_nonempty; discriminate|].
  unfold env_or, env_number.
  repeat split; intros [-> | ->]; reflexivity.
Qed.

(** ** The SELECT check looks at the first word only *)

Lemma trimStart_app_stop (a b : jsstring) (c : N) :
  isWhiteSpace c = false -> trimStart (a ++ c :: b) = trimStart a ++ c :: b.
Proof.
  intros Hc. induction a as [|x a IH]; cbn [app trimStart].
  - rewrite Hc. reflexivity.
  - destruct (isWhiteSpace x); [assumption | reflexivity].
Qed.

Lemma trimStart_head (s r : jsstring) (c : N) :
  trimStart s = c :: r -> isWhiteSpace c = false.
Proof.
  induction s as [|x s IH]; cbn [trimStart]; [discriminate|].
  destruct (isWhiteSpace x) eqn:Hx; [assumption|].
  intros E. injection E as <- _. assumption.
Qed.

Lemma trimStart_skips (ws s : jsstring) :
  forallb isWhiteSpace ws = true -> trimStart (ws ++ s) = trimStart s.
Proof.
  induction ws as [|x ws IH]; cbn [forallb app trimStart]; [reflexivity|].
  intros H. apply andb_true_iff in H as [-> Hws]. apply IH. assumption.
Qed.

(** What is in front stays in front when the end is trimmed. *)
Lemma trimEnd_cons (c : N) (r : jsstring) :
  isWhiteSpace c = false -> trimEnd (c :: r) = c :: trimEnd r.
Proof.
  intros Hc. unfold trimEnd. cbn [rev].
  change (rev r ++ [c]) with (rev r ++ c :: []).
  rewrite (trimStart_app_stop _ _ _ Hc), rev_app_distr. reflexivity.
Qed.

(** X22: the safety check of [query] reads the first word only.  A text
    that starts, after white space, with "SELECT" passes whatever follows
    (a second statement included); a text whose first character after
    white space is an ASCII character other than "s" and "S" is refused,
    read-only or not. *)
Theorem select_check_reads_first_word_only (ws q : jsstring) :
  forallb isWhiteSpace ws = true ->
  is_select (ws ++ lit "SELECT" ++ q) = true
  /\ (forall c r, q = c :: r -> isWhiteSpace c = false -> c < 128 ->
      c <> 83 -> c <> 115 -> is_select (ws ++ q) = false).
Proof.
  intros Hws. unfold is_select, trim. split.
  - rewrite (trimStart_skips _ _ Hws).
    change (lit "SELECT" ++ q) with (83 :: 69 :: 76 :: 69 :: 67 :: 84 :: q).
    cbn [trimStart]. change (isWhiteSpace 83) with false. cbv iota.
    rewrite !trimEnd_cons by reflexivity. reflexivity.
  - intros c r -> Hc Hlt H1 H2.
    rewrite (trimStart_skips _ _ Hws). cbn [trimStart]. rewrite Hc.
    rewrite (trimEnd_cons _ _ Hc). unfold toUpperCase. cbn [flat_map].
    unfold Uppercase_Mapping at 1. apply N.ltb_lt in Hlt. rewrite Hlt.
    cbn [app]. change (lit "SELECT") with (83 :: lit "ELECT").
    cbn [startsWith]. apply andb_false_iff. left. apply N.eqb_neq.
    unfold ascii_upper. destruct ((97 <=? c) && (c <=? 122)) eqn:E; [|auto].
    apply andb_true_iff in E as [E1 E2].
    apply N.leb_le in E1, E2. lia.
Qed.

End Adapter.

(** * Examples on the sample host *)

#[local] Abbreviation U := sample_Uppercase_Mapping.
#[local] Abbreviation NT := sample_Number_toString.
#[local] Abbreviation DP := sample_Date_parse.
#[local] Abbreviation JS := sample_JSON_stringify.
#[local] Abbreviation UP := sample_URL_parses.

Example base64_admin_quest :
  base64 (Buffer_from (lit "admin:quest")) = lit "YWRtaW46cXVlc3Q=".
Proof. reflexivity. Qed.

Example long_s_passes_the_check : is_select U (383 :: lit "elect 1") = true.
Proof. reflexivity. Qed.

(** C1 at "DROP TABLE trades" (refused, nothing sent) and at "  SeLeCt 1 "
    (one GET request). *)
Lemma C1_query_select_gate_witness :
  (startsWith (toUpperCase U (trim (lit "DROP TABLE trades"))) (lit "SELECT") = false
   /\ query U NT UP (serving VNull) sample_config (lit "DROP TABLE trades") None (fresh false)
      = (Throw (ErrorObj (lit "Only SELECT queries are allowed for safety reasons")),
         fresh false)
   /\ requests_of (query U NT UP (serving VNull) sample_config
                     (lit "DROP TABLE trades") None) (fresh false) = [])
  /\ (startsWith (toUpperCase U (trim (lit "  SeLeCt 1 "))) (lit "SELECT") = true
      /\ requests_of (query U NT UP (serving VNull) sample_config
                        (lit "  SeLeCt 1 ") None) (fresh false)
         = [query_GET NT sample_config (lit "  SeLeCt 1 ") (lit "json")]).
Proof.
  split.
  - split; [reflexivity|].
    exact (proj1 (C1_query_select_gate U NT UP (serving VNull) sample_config
                    (lit "DROP TABLE trades") None (fresh false)) eq_refl).
  - split.
    + exact (proj2 (proj2 (C1_query_select_gate U NT UP (serving VNull) sample_config
                             (lit "  SeLeCt 1 ") None (fresh false)))
               (lit "SeLeCt") (lit " 1") eq_refl eq_refl).
    + exact (proj2 (proj1 (proj2 (C1_query_select_gate U NT UP (serving VNull)
                                    sample_config (lit "  SeLeCt 1 ") None
                                    (fresh false))) eq_refl) eq_refl).
Defined.


Lemma map_Ok_inj {A} (a b : list A) : map (@Ok A) a = map (@Ok A) b -> a = b.
Proof.
  revert b. induction a as [|x a IH]; intros [|y b] H; try discriminate; [reflexivity|].
  cbn [map] in H. injection H as -> H. rewrite (IH b H). reflexivity.
Qed.


(** C4 at a numeric timestamp (used as it is, and the row is closed with
    it), at a date and at a text that is no date (the event time is then
    NaN and the coercion throws nothing), and at an object without
    conversion to a string ([insert] throws the [TypeError] before the row
    is started). *)
Lemma C4_timestamp_coercion_witness :
  (lookup (lit "timestamp") sample_record = Some (VNumber (Number_of_N 1699123456789))
   /\ extract_timestamp NT DP sample_record = Ok (Some (Number_of_N 1699123456789))
   /\ exists h,
       In (h, At (Number_of_N 1699123456789) (lit "ms"))
          (sender_calls_of (insert NT DP (serving VNull) sample_config (lit "t")
                              sample_record) (fresh false)))
  /\ (lookup (lit "timestamp") dated_record
      = Some (VString (lit "2023-11-04T18:44:16.789Z"))
      /\ extract_timestamp NT DP dated_record = Ok (Some (Number_of_N 1699123456789)))
  /\ (lookup (lit "timestamp") undated_record = Some (VString (lit "not a date"))
      /\ extract_timestamp NT DP undated_record = Ok (Some NaN))
  /\ (lookup (lit "timestamp") unconvertible_timestamp = Some no_string
      /\ extract_timestamp NT DP unconvertible_timestamp
         = Throw (ErrorObj (lit "Cannot convert object to primitive value"))
      /\ insert NT DP (serving VNull) sample_config (lit "t") unconvertible_timestamp
           holding
         = (Throw (ErrorObj (lit "Cannot convert object to primitive value")), holding))
  /\ (fst (insert NT DP strict_sender sample_config (lit "t") undated_record (fresh false))
      = Throw (ErrorObj
                 (lit "Designated timestamp must be an integer or BigInt, received NaN"))
      /\ exists hist h c,
          sender_answer strict_sender hist h c
          = Some (ErrorObj
                    (lit "Designated timestamp must be an integer or BigInt, received NaN"))).
Proof.
  split; [|split; [|split; [|split]]]; (split; [reflexivity|]).
  - split.
    + exact (proj1 (C4_timestamp_coercion NT DP (serving VNull) sample_config
                      (lit "t") sample_record
                      (VNumber (Number_of_N 1699123456789)) (fresh false)
                      eq_refl ltac:(discriminate))).
    + exact (proj1 (proj2 (C4_timestamp_coercion NT DP (serving VNull) sample_config
                             (lit "t") sample_record
                             (VNumber (Number_of_N 1699123456789)) (fresh false)
                             eq_refl ltac:(discriminate)))
               (Number_of_N 1699123456789) tt eq_refl eq_refl).
  - exact (proj1 (C4_timestamp_coercion NT DP (serving VNull) sample_config
                    (lit "t") dated_record (VString (lit "2023-11-04T18:44:16.789Z"))
                    (fresh false) eq_refl ltac:(discriminate))).
  - exact (proj1 (C4_timestamp_coercion NT DP (serving VNull) sample_config
                    (lit "t") undated_record (VString (lit "not a date"))
                    (fresh false) eq_refl ltac:(discriminate))).
  - split; [reflexivity|].
    exact (proj2 (proj2 (proj2
             (proj1 (proj2 (proj2
                (C4_timestamp_coercion NT DP (serving VNull) sample_config
                   (lit "t") unconvertible_timestamp no_string holding
                   eq_refl ltac:(discriminate))))
                _ eq_refl))) 0 eq_refl).
  - destruct (proj2 (proj2 (proj2
                (C4_timestamp_coercion NT DP strict_sender sample_config
                   (lit "t") undated_record (VString (lit "not a date")) (fresh false)
                   eq_refl ltac:(discriminate)))) _ eq_refl)
      as [(hist & h & c & H & _)|H]; [|discriminate H].
    exists hist, h, c. exact H.
Defined.

(** C5 at the sample record: the call for [a] comes from a field that is
    not null and not [timestamp]. *)
Lemma C5_insert_skips_null_and_timestamp_witness :
  In (0, Symbol (lit "a") (lit "x"))
     (sender_calls_of (insert NT DP (serving VNull) sample_config (lit "t")
                         sample_record) (fresh false))
  /\ is_column_call (Symbol (lit "a") (lit "x")) = true
  /\ lit "a" <> lit "timestamp"
  /\ lookup (lit "timestamp") (obj_rest (lit "timestamp") sample_record) = None.
Proof.
  assert (Hin : In (0, Symbol (lit "a") (lit "x"))
                  (sender_calls_of (insert NT DP (serving VNull) sample_config (lit "t")
                                      sample_record) (fresh false)))
    by (right; right; left; reflexivity).
  split; [exact Hin|]. split; [reflexivity|].
  destruct (C5_insert_skips_null_and_timestamp NT DP (serving VNull) sample_config
              (lit "t") sample_record (fresh false) 0 (Symbol (lit "a") (lit "x"))
              Hin eq_refl) as (H1 & H2 & _).
  split; assumption.
Defined.

(** C6 at a result with two rows and at a result without dataset. *)
Lemma C6_listTables_projection_witness :
  (query U NT UP (serving two_tables) sample_config listTables_sql (Some (lit "json"))
     (fresh false)
   = (Ok two_tables,
      snd (query U NT UP (serving two_tables) sample_config listTables_sql
             (Some (lit "json")) (fresh false)))
   /\ fst (listTables U NT UP (serving two_tables) sample_config (fresh false))
      = Ok [VString (lit "quotes"); VString (lit "trades")])
  /\ fst (listTables U NT UP (serving (VObject [])) sample_config (fresh false)) = Ok [].
Proof.
  split; [split; [reflexivity|]|].
  - rewrite (proj1 (proj2 (C6_listTables_projection U NT UP (serving two_tables)
                             sample_config (fresh false) _ two_tables eq_refl)
                      _ eq_refl ltac:(repeat constructor))).
    reflexivity.
  - rewrite (proj1 (C6_listTables_projection U NT UP (serving (VObject []))
                      sample_config (fresh false) _ (VObject []) eq_refl)
               (fun rows (H : Some VUndefined = Some (VArray rows)) =>
                  ltac:(discriminate H))).
    reflexivity.
Defined.


(** C8 at an adapter that holds a sender whose [flush] fails. *)
Lemma C8_close_idempotent_witness :
  this_sender holding = Some 0
  /\ sender_answer strict_sender (sender_log holding) 0 Flush
     = Some (ErrorObj (lit "socket closed"))
  /\ exists st1,
      close strict_sender holding = (Ok tt, st1)
      /\ this_sender st1 = None
      /\ close strict_sender st1 = (Ok tt, st1)
      /\ console st1
         = [[VString (lit "Error closing QuestDB connection:");
             VObject [(lit "message", VString (lit "socket closed"))]]].
Proof.
  split; [reflexivity|]. split; [reflexivity|].
  destruct (C8_close_idempotent NT DP strict_sender sample_config holding)
    as (st1 & H1 & H2 & H3 & H4 & _).
  exists st1. split; [assumption|]. split; [assumption|]. split; [assumption|].
  exact (H4 0 (ErrorObj (lit "socket closed")) eq_refl (or_introl eq_refl)).
Defined.

(** C9 at a result with a count and two rows. *)
Lemma C9_query_handler_json_output_witness :
  fst (query U NT UP (serving two_tables) sample_config (lit "select 1")
         (Some (lit "json")) (fresh false)) = Ok two_tables
  /\ isNullish two_tables = false
  /\ query_handler U NT JS UP (serving two_tables) sample_config (lit "select 1") None
       (fresh false)
     = query_handler U NT JS UP (serving two_tables) sample_config (lit "select 1")
         (Some (lit "json")) (fresh false).
Proof.
  split; [reflexivity|]. split; [reflexivity|].
  exact (proj1 (proj2 (C9_query_handler_json_output U NT JS UP (serving two_tables)
                         sample_config (lit "select 1") two_tables (fresh false)
                         (snd (query U NT UP (serving two_tables) sample_config
                                 (lit "select 1") (Some (lit "json")) (fresh false)))
                         eq_refl eq_refl))).
Defined.


(** ** Where the specification and the code part *)


(** C4, counterexample: the record [{timestamp: "not a date", a: "x"}]
    has a timestamp that is neither a number nor a date.  The coercion
    yields NaN and throws nothing: the row is started, the column is sent
    and [at(NaN, "ms")] is called; the error of [insert] is the answer of
    the sender to that call. *)
Lemma C4_counterexample :
  lookup (lit "timestamp") undated_record = Some (VString (lit "not a date"))
  /\ DP (lit "not a date") = NaN
  /\ extract_timestamp NT DP undated_record = Ok (Some NaN)
  /\ sender_calls_of (insert NT DP strict_sender sample_config (lit "t") undated_record)
       (fresh false)
     = [(0, FromConfig (lit "http::addr=localhost:9000"));
        (0, Table (lit "t"));
        (0, Symbol (lit "a") (lit "x"));
        (0, At NaN (lit "ms"))]
  /\ sender_answer strict_sender
       [(0, FromConfig (lit "http::addr=localhost:9000"));
        (0, Table (lit "t"));
        (0, Symbol (lit "a") (lit "x"))] 0 (At NaN (lit "ms"))
     = Some (ErrorObj
               (lit "Designated timestamp must be an integer or BigInt, received NaN"))
  /\ fst (insert NT DP strict_sender sample_config (lit "t") undated_record (fresh false))
     = Throw (ErrorObj
                (lit "Designated timestamp must be an integer or BigInt, received NaN")).
Proof. repeat split. Qed.

(** C6, counterexample: the result [{dataset: [null]}] has a dataset that
    is an array, and [listTables] throws the TypeError of [null[0]]. *)
Lemma C6_counterexample :
  Get null_row (lit "dataset") = Some (VArray [VNull])
  /\ fst (query U NT UP (serving null_row) sample_config listTables_sql
            (Some (lit "json")) (fresh false)) = Ok null_row
  /\ fst (listTables U NT UP (serving null_row) sample_config (fresh false))
     = Throw (ErrorObj (lit "Cannot read properties of null (reading '0')")).
Proof. repeat split. Qed.

(** C9, counterexample: for the result [{dataset: [[1]], count: 0}] the
    count field is present and is 0, and the handler's structured output
    has count 1, the length of the dataset; for the result [null] the
    query succeeds and the handler answers with the error envelope. *)
Lemma C9_counterexample :
  (prop zero_count (lit "count") = VNumber (S754_zero false)
   /\ fst (query U NT UP (serving zero_count) sample_config (lit "select 1")
             (Some (lit "json")) (fresh false)) = Ok zero_count
   /\ fst (query_handler U NT JS UP (serving zero_count) sample_config (lit "select 1")
             None (fresh false))
      = Ok {| content := [text_item (JS zero_count)];
              structuredContent :=
                Some (query_output (lit "select 1")
                        (VArray [VArray [VNumber (Number_of_N 1)]])
                        (VNumber (Number_of_N 1))
                        (VArray []));
              isError := false |}
   /\ VNumber (Number_of_N 1) <> VNumber (S754_zero false))
  /\ (fst (query U NT UP (serving VNull) sample_config (lit "select 1")
             (Some (lit "json")) (fresh false)) = Ok VNull
      /\ fst (query_handler U NT JS UP (serving VNull) sample_config (lit "select 1")
                None (fresh false))
         = Ok {| content :=
                   [{| item_type := lit "text";
                       item_text :=
                         VString
                           (lit "Error: Cannot read properties of null (reading 'dataset')") |}];
                 structuredContent := None;
                 isError := true |}).
Proof. repeat split. discriminate. Qed.

(** * Configuration and connection string *)

(** X21: a flush setting whose text [parseInt] reads as 0 or as [NaN]
    (such as "0" or "off") is dropped: the connection string is the one of
    the configuration without that setting. *)
Theorem loadConfig_drops_falsy_flush_rows
  (Number_toString : spec_float -> jsstring) (e : ProcessEnv) (v : jsstring) :
  getenv (lit "QUESTDB_AUTO_FLUSH_ROWS") e = Some v ->
  truthy (VNumber (parseInt10 v)) = false ->
  autoFlushRows (loadConfig e) = (if truthy (VString v) then Some (parseInt10 v) else None)
  /\ buildConfigString Number_toString (loadConfig e)
     = buildConfigString Number_toString
         {| host := host (loadConfig e); port := port (loadConfig e);
            username := username (loadConfig e); password := password (loadConfig e);
            autoFlushRows := None;
            autoFlushInterval := autoFlushInterval (loadConfig e) |}.
Proof.
  intros Hv Hf. split.
  - unfold loadConfig, env_number. cbn [autoFlushRows]. rewrite Hv. reflexivity.
  - unfold buildConfigString, has_credentials, loadConfig, env_number.
    cbn [host port username password autoFlushRows autoFlushInterval].
    rewrite Hv. destruct (truthy (VString v)); [|reflexivity].
    cbn [truthy_num]. rewrite Hf. reflexivity.
Qed.

(** * Further examples on the sample host *)

Lemma query_tool_reports_http_failure_witness :
  is_select U (lit "select 1") = true
  /\ UP (exec_href NT sample_config) = true
  /\ exists st',
      query_handler U NT JS UP refusing sample_config (lit "select 1") None (fresh true)
      = (Ok {| content :=
                 [{| item_type := lit "text";
                     item_text :=
                       VString
                         (lit "Error: Query failed: 400 Bad Request. unexpected token") |}];
               structuredContent := None;
               isError := true |},
         st').
Proof.
  split; [reflexivity|]. split; [reflexivity|].
  destruct (query_tool_reports_http_failure U NT JS UP refusing sample_config
              (lit "select 1") None (fresh true)
              {| resp_ok := false; resp_status := 400;
                 resp_statusText := lit "Bad Request";
                 resp_text := Ok (lit "unexpected token");
                 resp_json := Throw (ErrorObj (lit "Unexpected token")) |}
              (lit "unexpected token") eq_refl eq_refl eq_refl eq_refl eq_refl)
    as (st' & E & _).
  exists st'. exact E.
Defined.

Lemma query_tool_returns_raw_text_witness :
  lit "csv" <> lit "json"
  /\ query_handler U NT JS UP (serving VNull) sample_config (lit "select 1")
       (Some (lit "csv")) (fresh false)
     = (Ok {| content := [text_item (VString (lit ""))];
              structuredContent := None;
              isError := false |},
        push_net_log (query_GET NT sample_config (lit "select 1") (lit "csv"))
          (fresh false)).
Proof.
  split; [discriminate|].
  exact (query_tool_returns_raw_text U NT JS UP (serving VNull) sample_config
           (lit "select 1") (lit "csv") (fresh false)
           {| resp_ok := true; resp_status := 200; resp_statusText := lit "OK";
              resp_text := Ok (lit ""); resp_json := Ok VNull |}
           (lit "") ltac:(discriminate) ltac:(discriminate)
           eq_refl eq_refl eq_refl eq_refl eq_refl).
Defined.

Lemma query_tool_rejects_non_select_witness :
  is_select U (lit "DELETE FROM trades") = false
  /\ exists st',
      query_handler U NT JS UP (serving VNull) sample_config (lit "DELETE FROM trades")
        None (fresh false)
      = (Ok {| content :=
                 [{| item_type := lit "text";
                     item_text :=
                       VString
                         (lit "Error: Only SELECT queries are allowed for safety reasons") |}];
               structuredContent := None;
               isError := true |},
         st')
      /\ net_log st' = [].
Proof.
  split; [reflexivity|].
  destruct (query_tool_rejects_non_select U NT JS UP (serving VNull) sample_config
              (lit "DELETE FROM trades") None (fresh false) eq_refl)
    as (st' & E & _ & _ & Hn & _).
  exists st'. split; [exact E | exact Hn].
Defined.

Lemma describe_tool_rejects_bad_name_witness :
  table_name_test (lit "trades; --") = false
  /\ exists st',
      describe_table_handler U NT JS UP (serving VNull) sample_config (lit "trades; --")
        (fresh false)
      = (Ok {| content :=
                 [{| item_type := lit "text";
                     item_text := VString (lit "Error: Invalid table name: trades; --") |}];
               structuredContent := None;
               isError := true |}, st')
      /\ net_log st' = [].
Proof.
  split; [reflexivity|].
  destruct (describe_tool_rejects_bad_name U NT JS UP (serving VNull) sample_config
              (lit "trades; --") (fresh false) eq_refl)
    as (st' & E & _ & _ & Hn & _).
  exists st'. split; [exact E | exact Hn].
Defined.

Lemma insert_reuses_held_sender_witness :
  this_sender holding = Some 0
  /\ this_sender (snd (insert NT DP strict_sender sample_config (lit "t") sample_record
                         holding)) = Some 0.
Proof.
  split; [reflexivity|].
  exact (proj1 (insert_reuses_held_sender NT DP strict_sender sample_config (lit "t")
                  sample_record holding 0 eq_refl)).
Defined.

Lemma insert_creates_sender_once_witness :
  this_sender (fresh false) = None
  /\ this_sender (snd (insert NT DP strict_sender sample_config (lit "t") undated_record
                         (fresh false))) = Some 0.
Proof.
  split; [reflexivity|].
  exact (proj1 (insert_creates_sender_once NT DP strict_sender sample_config (lit "t")
                  undated_record (fresh false) eq_refl)).
Defined.

Lemma insert_without_timestamp_uses_atNow_witness :
  lookup (lit "timestamp") [(lit "a", VString (lit "x"))] = None
  /\ exists h,
      In (h, AtNow)
         (sender_calls_of (insert NT DP (serving VNull) sample_config (lit "t")
                             [(lit "a", VString (lit "x"))]) (fresh false)).
Proof.
  split; [reflexivity|].
  exact (proj2 (insert_without_timestamp_uses_atNow NT DP (serving VNull) sample_config
                  (lit "t") [(lit "a", VString (lit "x"))] (fresh false)
                  (or_introl eq_refl)) tt eq_refl).
Defined.

Lemma insert_success_writes_and_flushes_witness :
  fst (insert NT DP (serving VNull) sample_config (lit "t") mixed_record holding) = Ok tt
  /\ sender_calls_of (insert NT DP (serving VNull) sample_config (lit "t") mixed_record)
       holding
     = [(0, Table (lit "t"));
        (0, Symbol (lit "a") (lit "x"));
        (0, IntColumn (lit "b") (Number_of_N 1));
        (0, FloatColumn (lit "b2") (S754_finite false 3 (-1)));
        (0, BooleanColumn (lit "c") true);
        (0, Symbol (lit "l") (lit "a,,1"));
        (0, Symbol (lit "o") (lit "[object Object]"));
        (0, At (Number_of_N 1699123456789) (lit "ms"));
        (0, Flush)].
Proof.
  split; [reflexivity|].
  destruct (insert_success_writes_and_flushes NT DP (serving VNull) sample_config
              (lit "t") mixed_record holding tt eq_refl)
    as (pre & h & columns & timestamp & E & Hc & Ht & Hpre & Hh).
  rewrite E.
  apply (map_Ok_inj columns
           [Symbol (lit "a") (lit "x");
            IntColumn (lit "b") (Number_of_N 1);
            FloatColumn (lit "b2") (S754_finite false 3 (-1));
            BooleanColumn (lit "c") true;
            Symbol (lit "l") (lit "a,,1");
            Symbol (lit "o") (lit "[object Object]")]) in Hc.
  injection Ht as <-.
  rewrite Hpre, Hh, Hc. reflexivity.
Defined.

Lemma insert_stops_at_first_failure_witness :
  (fst (insert NT DP strict_sender sample_config (lit "t") undated_record (fresh false))
   = Throw (ErrorObj
              (lit "Designated timestamp must be an integer or BigInt, received NaN"))
   /\ exists earlier h c,
       sender_calls_of (insert NT DP strict_sender sample_config (lit "t") undated_record)
         (fresh false) = earlier ++ [(h, c)]
       /\ sender_answer strict_sender (sender_log (fresh false) ++ earlier) h c
          = Some (ErrorObj
                    (lit "Designated timestamp must be an integer or BigInt, received NaN")))
  /\ (fst (insert NT DP (serving VNull) sample_config (lit "t") unconvertible_record
             (fresh false))
      = Throw (ErrorObj (lit "Cannot convert object to primitive value"))
      /\ forall h c,
          In (h, c) (sender_calls_of (insert NT DP (serving VNull) sample_config (lit "t")
                                        unconvertible_record) (fresh false)) ->
          c <> Flush).
Proof.
  split; (split; [reflexivity|]).
  - destruct (insert_stops_at_first_failure NT DP strict_sender sample_config (lit "t")
                undated_record (fresh false) _ eq_refl)
      as [(earlier & h & c & E & Ha)|(H & _)]; [|discriminate H].
    exists earlier, h, c. split; [exact E | exact Ha].
  - destruct (insert_stops_at_first_failure NT DP (serving VNull) sample_config (lit "t")
                unconvertible_record (fresh false) _ eq_refl)
      as [(earlier & h & c & _ & Ha)|(_ & _ & _ & Hno)]; [discriminate Ha|].
    intros h c Hin. exact (proj1 (Hno h c Hin)).
Defined.

Lemma list_tool_end_to_end_witness :
  Get two_tables (lit "dataset")
  = Some (VArray [VArray [VString (lit "quotes")]; VArray [VString (lit "trades")]])
  /\ structuredContent
       (match fst (list_tables_handler U NT JS UP (serving two_tables) sample_config
                     (fresh false)) with
        | Ok envelope => envelope
        | Throw _ => error_envelope []
        end)
     = Some (VObject [(lit "tables", VArray [VString (lit "quotes");
                                             VString (lit "trades")]);
                      (lit "count", VNumber (Number_of_N 2))]).
Proof.
  split; [reflexivity|].
  rewrite (list_tool_end_to_end U NT JS UP (serving two_tables) sample_config
             (fresh false)
             {| resp_ok := true; resp_status := 200; resp_statusText := lit "OK";
                resp_text := Ok (lit ""); resp_json := Ok two_tables |}
             two_tables
             [VArray [VString (lit "quotes")]; VArray [VString (lit "trades")]]
             eq_refl eq_refl eq_refl eq_refl eq_refl ltac:(repeat constructor)).
  reflexivity.
Defined.

Lemma describe_tool_end_to_end_witness :
  table_name_test (lit "trades") = true
  /\ isNullish two_tables = false
  /\ structuredContent
       (match fst (describe_table_handler U NT JS UP (serving two_tables) sample_config
                     (lit "trades") (fresh false)) with
        | Ok envelope => envelope
        | Throw _ => error_envelope []
        end)
     = Some (VObject [(lit "table", VString (lit "trades"));
                      (lit "columns",
                       VArray [VArray [VString (lit "quotes")];
                               VArray [VString (lit "trades")]])]).
Proof.
  split; [reflexivity|]. split; [reflexivity|].
  rewrite (describe_tool_end_to_end U NT JS UP (serving two_tables) sample_config
             (lit "trades") (fresh false)
             {| resp_ok := true; resp_status := 200; resp_statusText := lit "OK";
                resp_text := Ok (lit ""); resp_json := Ok two_tables |}
             two_tables eq_refl eq_refl eq_refl eq_refl eq_refl eq_refl).
  reflexivity.
Defined.

Lemma insert_tool_success_witness :
  fst (insert NT DP (serving VNull) sample_config (lit "t") sample_record (fresh true))
  = Ok tt
  /\ exists st',
      insert_handler NT DP (serving VNull) sample_config (lit "t") sample_record
        (fresh true)
      = (Ok {| content :=
                 [text_item (VString (lit "Successfully inserted data into table 't'"))];
               structuredContent :=
                 Some (VObject
                         [(lit "success", VBool true);
                          (lit "table", VString (lit "t"));
                          (lit "message",
                           VString (lit "Successfully inserted data into table 't'"))]);
               isError := false |}, st').
Proof.
  split; [reflexivity|].
  destruct (insert_tool_success NT DP (serving VNull) sample_config (lit "t")
              sample_record (fresh true) tt eq_refl) as (st' & E & _).
  exists st'. exact E.
Defined.

Lemma describe_sql_quotes_witness :
  table_name_test (lit "trades_2024") = true
  /\ count_occ N.eq_dec (describe_sql (lit "trades_2024")) 39 = 2%nat.
Proof.
  split; [reflexivity|].
  exact (proj2 (describe_sql_quotes (lit "trades_2024") eq_refl)).
Defined.

Lemma loadConfig_drops_falsy_flush_rows_witness :
  parseInt10 (lit "0") = S754_zero false
  /\ parseInt10 (lit "off") = NaN
  /\ buildConfigString NT (loadConfig [(lit "QUESTDB_AUTO_FLUSH_ROWS", lit "0")])
     = lit "http::addr=localhost:9000"
  /\ buildConfigString NT (loadConfig [(lit "QUESTDB_AUTO_FLUSH_ROWS", lit "off");
                                       (lit "QUESTDB_PORT", lit " 9009/tcp")])
     = lit "http::addr=localhost:9009".
Proof.
  split; [reflexivity|]. split; [reflexivity|]. split.
  - rewrite (proj2 (loadConfig_drops_falsy_flush_rows NT
                      [(lit "QUESTDB_AUTO_FLUSH_ROWS", lit "0")] (lit "0")
                      eq_refl eq_refl)).
    reflexivity.
  - rewrite (proj2 (loadConfig_drops_falsy_flush_rows NT
                      [(lit "QUESTDB_AUTO_FLUSH_ROWS", lit "off");
                       (lit "QUESTDB_PORT", lit " 9009/tcp")] (lit "off")
                      eq_refl eq_refl)).
    reflexivity.
Defined.

Lemma select_check_reads_first_word_only_witness :
  forallb isWhiteSpace (lit "  ") = true
  /\ is_select U (lit "  " ++ lit "SELECT" ++ lit " 1; DROP TABLE trades") = true
  /\ is_select U (lit "  " ++ lit "WITH x AS (SELECT 1) SELECT * FROM x") = false.
Proof.
  split; [reflexivity|]. split.
  - exact (proj1 (select_check_reads_first_word_only U (lit "  ")
                    (lit " 1; DROP TABLE trades") eq_refl)).
  - exact (proj2 (select_check_reads_first_word_only U (lit "  ")
                    (lit "WITH x AS (SELECT 1) SELECT * FROM x") eq_refl)
             87 (lit "ITH x AS (SELECT 1) SELECT * FROM x") eq_refl eq_refl
             eq_refl ltac:(discriminate) ltac:(discriminate)).
Defined.
